(** * notep-web: the two HTTP client wrappers and the session store

    A shallow embedding of [src/utils/api.js] and [src/utils/request.js]
    (axios instances with request/response interceptors) together with
    the parts of [LoginPage] and [App.jsx] that touch [localStorage].

    - JavaScript values received from the backend are a small JSON type;
      property access, truthiness and [ToString] follow ECMAScript.
    - [localStorage] is a finite map from keys to strings.
    - Code with effects (storage writes, alerts, navigation, network
      calls, exceptions and promise rejections) runs in a state-and-
      exception monad [M] over a [World]; [await] is bind, a rejected
      promise is an abrupt completion, [try/catch] is [try_catch].
    - What the environment decides (the clock, the answer to
      [window.confirm], the outcome of a network call) is an [Env]. *)

From Stdlib Require Import ZArith NArith String Ascii List Lia.
From stdpp Require Import base option gmap strings pretty.

#[local] Set Warnings "-register-all".

Local Open Scope string_scope.
Local Open Scope Z_scope.

(** ** JavaScript values *)

Module JS.

(** JSON values plus [undefined].  The numbers are those of the integer
    literals: [VNum n] is what [JSON.parse] makes of the literal [n]. *)
Inductive value : Type :=
| VUndefined
| VNull
| VBool (b : bool)
| VNum (n : Z)
| VStr (s : string)
| VArr (items : list value)
| VObj (fields : list (string * value)).

(** A thrown (or rejected-with) value: an [Error] instance, of which only
    [name] and [message] are observed, or any other value such as an
    object literal. *)
Inductive thrown : Type :=
| ErrorObject (name : string) (message : string)
| Thrown (v : value).

Inductive completion (A : Type) : Type :=
| Normal (a : A)
| Abrupt (e : thrown).
Arguments Normal {A} a.
Arguments Abrupt {A} e.

(** [ToBoolean]. *)
Definition truthy (v : value) : bool :=
  match v with
  | VUndefined | VNull => false
  | VBool b => b
  | VNum n => negb (n =? 0)%Z
  | VStr s => negb (String.eqb s "")
  | VArr _ | VObj _ => true
  end.

(** [a || b] on values. *)
Definition or_else (a b : value) : value := if truthy a then a else b.

Fixpoint assoc (k : string) (fields : list (string * value)) : option value :=
  match fields with
  | [] => None
  | (k', v) :: rest => if String.eqb k k' then Some v else assoc k rest
  end.

(** [v.k] for the property names the clients read ([data], [code],
    [success], [message], [token]): none of them is defined on a
    primitive or on an array; reading a property of [null] or
    [undefined] throws a [TypeError] (V8's wording of the message). *)
Definition type_error (what k : string) : thrown :=
  ErrorObject "TypeError"
    ("Cannot read properties of " +:+ what +:+ " (reading '" +:+ k +:+ "')").

Definition get_prop (v : value) (k : string) : completion value :=
  match v with
  | VUndefined => Abrupt (type_error "undefined" k)
  | VNull => Abrupt (type_error "null" k)
  | VObj fields => Normal (default VUndefined (assoc k fields))
  | _ => Normal VUndefined
  end.

(** [v?.k]. *)
Definition get_prop_opt (v : value) (k : string) : value :=
  match get_prop v k with
  | Normal x => x
  | Abrupt _ => VUndefined
  end.

(** [Number.prototype.toString] on a time value or an HTTP status, the
    only numbers the code prints itself: an integer that a double holds
    exactly (a time value is at most 8.64e15 in magnitude, below 2^53)
    and whose text is its decimal digits. *)
Definition number_to_string (n : Z) : string := pretty n.

(** *** [Number::toString] on a number of a body

    [VNum n] is the number [JSON.parse] yields for the integer literal
    [n]: the double nearest to [n].  Its text has the fewest digits that
    read back as that double, written out in full up to 21 digits and
    with an exponent beyond. *)

(** The double nearest to the positive integer [n], ties to even. *)
Definition round_double (n : Z) : Z :=
  let bits := Z.log2 n + 1 in
  if bits <=? 53 then n
  else
    let sh := bits - 53 in
    let q := Z.shiftr n sh in
    let r := n - Z.shiftl q sh in
    let half := Z.shiftl 1 (sh - 1) in
    let q' := if (half <? r) || ((r =? half) && Z.odd q) then q + 1 else q in
    Z.shiftl q' sh.

Definition decimal_length (x : Z) : Z := Z.of_nat (String.length (pretty x)).

(** The integer with the fewest significant digits, [k] at least, that
    is read back as the double [x]; of two with as few, the one nearer
    to [x]. *)
Fixpoint shortest (fuel : nat) (k : Z) (x : Z) : Z :=
  match fuel with
  | O => x
  | S fuel' =>
      let p := 10 ^ (decimal_length x - k) in
      let s := x / p in
      let lo := s * p in
      let hi := lo + p in
      let ok_lo := round_double lo =? x in
      let ok_hi := round_double hi =? x in
      if ok_lo && ok_hi then
        if (x - lo <? hi - x) || ((x - lo =? hi - x) && Z.even s) then lo else hi
      else if ok_lo then lo
      else if ok_hi then hi
      else shortest fuel' (k + 1) x
  end.

Fixpoint strip_zeros (s : string) : string :=
  match s with
  | String a r => if Ascii.eqb a "0" then strip_zeros r else s
  | EmptyString => s
  end.

(** The digits of [digits] up to its last non-zero one. *)
Definition significant (digits : string) : string :=
  String.rev (strip_zeros (String.rev digits)).

(** The text of the positive integer [v], given by its significant
    digits. *)
Definition format_double (v : Z) : string :=
  let digits := pretty v in
  let n := Z.of_nat (String.length digits) in
  if n <=? 21 then digits
  else
    match significant digits with
    | String d EmptyString => String d "e+" +:+ pretty (n - 1)
    | String d rest => String d "." +:+ rest +:+ "e+" +:+ pretty (n - 1)
    | EmptyString => digits
    end.

Definition Number_toString (n : Z) : string :=
  if n =? 0 then "0"
  else
    let x := round_double (Z.abs n) in
    let text :=
      if 2 ^ 1024 <=? x then "Infinity"
      else format_double (shortest (Z.to_nat (decimal_length x)) 1 x) in
    if n <? 0 then "-" +:+ text else text.

(** [ToString].  An object answers ["[object Object]"] through
    [Object.prototype.toString], unless a key [toString] of its own
    hides that method: no value of a body is callable, and the
    conversion throws a [TypeError] (V8's wording).  An array joins the
    texts of its items, left to right. *)
Definition join_comma (parts : list string) : string :=
  match parts with
  | [] => ""
  | p :: ps => fold_left (fun acc q => acc +:+ "," +:+ q) ps p
  end.

Definition not_primitive : thrown :=
  ErrorObject "TypeError" "Cannot convert object to primitive value".

Fixpoint to_string (v : value) : completion string :=
  match v with
  | VUndefined => Normal "undefined"
  | VNull => Normal "null"
  | VBool true => Normal "true"
  | VBool false => Normal "false"
  | VNum n => Normal (Number_toString n)
  | VStr s => Normal s
  | VArr items =>
      match
        (fix texts (l : list value) : completion (list string) :=
           match l with
           | [] => Normal []
           | x :: rest =>
               match match x with
                     | VUndefined | VNull => Normal ""
                     | _ => to_string x
                     end with
               | Normal s =>
                   match texts rest with
                   | Normal ts => Normal (s :: ts)
                   | Abrupt e => Abrupt e
                   end
               | Abrupt e => Abrupt e
               end
           end) items
      with
      | Normal ts => Normal (join_comma ts)
      | Abrupt e => Abrupt e
      end
  | VObj fields =>
      match assoc "toString" fields with
      | Some _ => Abrupt not_primitive
      | None => Normal "[object Object]"
      end
  end.

(** What [Promise.reject(new Error(v))] and [throw new Error(v)] end
    with: the [Error] whose message is [ToString(v)] (the prototype's
    empty string when [v] is [undefined]), or what [ToString(v)] threw. *)
Definition new_Error (v : value) : thrown :=
  match v with
  | VUndefined => ErrorObject "Error" ""
  | _ =>
      match to_string v with
      | Normal s => ErrorObject "Error" s
      | Abrupt e => e
      end
  end.

(** [e.k] on a caught value. *)
Definition thrown_prop (e : thrown) (k : string) : completion value :=
  match e with
  | ErrorObject name message =>
      Normal (if String.eqb k "message" then VStr message
              else if String.eqb k "name" then VStr name
              else VUndefined)
  | Thrown v => get_prop v k
  end.

(** *** [parseInt(s)] with no radix argument

    Strings are UTF-8 byte sequences.  [None] stands for [NaN]. *)

Definition code (c : ascii) : N := N_of_ascii c.

Definition is_ascii_space (a : ascii) : bool :=
  let n := code a in
  ((9 <=? n) && (n <=? 13) || (n =? 32))%N.

(** U+00A0. *)
Definition two_byte_space (a b : ascii) : bool :=
  ((code a =? 194) && (code b =? 160))%N.

(** U+1680, U+2000..U+200A, U+2028, U+2029, U+202F, U+205F, U+3000
    and U+FEFF. *)
Definition three_byte_space (a b c : ascii) : bool :=
  let '(x, y, z) := (code a, code b, code c) in
  ((x =? 225) && (y =? 154) && (z =? 128)
   || (x =? 226) && (y =? 128)
        && ((128 <=? z) && (z <=? 138) || (z =? 168) || (z =? 169) || (z =? 175))
   || (x =? 226) && (y =? 129) && (z =? 159)
   || (x =? 227) && (y =? 128) && (z =? 128)
   || (x =? 239) && (y =? 187) && (z =? 191))%N.

Fixpoint trim_start (s : string) : string :=
  match s with
  | String a r1 =>
      if is_ascii_space a then trim_start r1 else
      match r1 with
      | String b r2 =>
          if two_byte_space a b then trim_start r2 else
          match r2 with
          | String c r3 => if three_byte_space a b c then trim_start r3 else s
          | EmptyString => s
          end
      | EmptyString => s
      end
  | EmptyString => s
  end.

Definition digit_of (radix : Z) (c : ascii) : option Z :=
  let n := Z.of_N (code c) in
  let d :=
    if (48 <=? n) && (n <=? 57) then Some (n - 48)
    else if (97 <=? n) && (n <=? 102) then Some (n - 87)
    else if (65 <=? n) && (n <=? 70) then Some (n - 55)
    else None in
  match d with
  | Some v => if v <? radix then Some v else None
  | None => None
  end.

(** The longest prefix of digits, read left to right; [acc] is [None]
    until a digit has been seen. *)
Fixpoint parse_digits (radix : Z) (acc : option Z) (s : string) : option Z :=
  match s with
  | String c r =>
      match digit_of radix c with
      | Some d => parse_digits radix (Some (radix * default 0 acc + d)) r
      | None => acc
      end
  | EmptyString => acc
  end.

(** A leading ["-"] or ["+"]. *)
Definition split_sign (s : string) : Z * string :=
  match s with
  | String a r =>
      if (code a =? 45)%N then (-1, r)
      else if (code a =? 43)%N then (1, r)
      else (1, s)
  | EmptyString => (1, s)
  end.

(** A leading ["0x"] or ["0X"] selects radix 16. *)
Definition split_radix (s : string) : Z * string :=
  match s with
  | String a (String b r) =>
      if ((code a =? 48) && ((code b =? 120) || (code b =? 88)))%N
      then (16, r)
      else (10, s)
  | _ => (10, s)
  end.

Definition parseInt (s : string) : option Z :=
  let '(sign, s1) := split_sign (trim_start s) in
  let '(radix, s2) := split_radix s1 in
  match parse_digits radix None s2 with
  | Some n => Some (sign * n)
  | None => None
  end.

(** [t > parseInt(s)], false when the right-hand side is [NaN].  A time
    value is an integer of magnitude at most 8.64e15, below 2^53, so the
    comparison of doubles agrees with the comparison of integers. *)
Definition gt_parsed (t : Z) (s : string) : bool :=
  match parseInt s with
  | Some n => n <? t
  | None => false
  end.

(** [{...o, k: v}] on the fields of [o]: [k] keeps its place when [o]
    has it and is added last when it has not. *)
Fixpoint obj_set (k : string) (v : value) (fields : list (string * value))
  : list (string * value) :=
  match fields with
  | [] => [(k, v)]
  | (k', v') :: rest =>
      if String.eqb k k' then (k, v) :: rest else (k', v') :: obj_set k v rest
  end.

End JS.

Import JS.

(** ** The browser: storage, side effects, clock and network *)

(** An axios request configuration, as the interceptors see it.  axios
    has lower-cased [method] before the request interceptors run;
    [params] is [None] when the caller gave none. *)
Record config : Type := mkConfig {
  method : string;
  url : string;
  params : option (gmap string value);
  data : value;
  headers : gmap string string
}.

Definition with_header (k v : string) (c : config) : config :=
  mkConfig (method c) (url c) (params c) (data c) (<[k := v]> (headers c)).

Definition with_params (p : gmap string value) (c : config) : config :=
  mkConfig (method c) (url c) (Some p) (data c) (headers c).

(** What the page does to the outside, in the order it happens.
    [console] output is left out. *)
Inductive effect : Type :=
| Alert (msg : string)
| Confirm (msg : string)
| Reload
| Navigate (href : string)
| NetCall (c : config).

Record World : Type := mkWorld {
  localStorage : gmap string string;
  trace : list effect
}.

(** What the server did with a request: it answered with a status and a
    parsed body, or nothing came back and axios reports [error.code]
    (['ECONNABORTED'] on a timeout), if any. *)
Inductive transport_outcome : Type :=
| Answered (status : Z) (body : value)
| Unanswered (code : option string).

(** The [error] axios hands to a response error handler: with
    [error.response = {status, data}], or without a response and with
    [error.code]. *)
Inductive axios_error : Type :=
| WithResponse (status : Z) (body : value)
| WithoutResponse (code : option string).

Record response : Type := mkResponse {
  resp_status : Z;
  resp_data : value;
  resp_config : config
}.

(** axios' default [validateStatus]: 2xx resolves, anything else
    rejects. *)
Definition validateStatus (status : Z) : bool :=
  (200 <=? status) && (status <? 300).

Definition settle (c : config) (o : transport_outcome) : response + axios_error :=
  match o with
  | Answered status body =>
      if validateStatus status then inl (mkResponse status body c)
      else inr (WithResponse status body)
  | Unanswered code => inr (WithoutResponse code)
  end.

Record Navigator : Type := mkNavigator {
  userAgent : string;
  platform : string;
  language : string;
  cookieEnabled : bool;
  onLine : bool
}.

(** The environment of one operation: the clock value it reads, what the
    user answers to [window.confirm], what [navigator] holds and how the
    network settles a request.  Every operation reads the clock at most
    once, and [now] is what it shows then: the request interceptor of
    [request.js] reads it before the request goes out, [loginUser] after
    the awaited call has returned, [getUserInfo] and [checkLoginStatus]
    when they start. *)
Record Env : Type := mkEnv {
  now : Z;
  confirm_answer : bool;
  navigator : Navigator;
  server : config -> transport_outcome
}.

(** *** The monad *)

Definition M (A : Type) : Type := World -> completion A * World.

Definition ret {A} (a : A) : M A := fun w => (Normal a, w).

Definition bind {A B} (m : M A) (k : A -> M B) : M B :=
  fun w =>
    match m w with
    | (Normal a, w') => k a w'
    | (Abrupt e, w') => (Abrupt e, w')
    end.

(** [throw e], [Promise.reject(e)]. *)
Definition throw {A} (e : thrown) : M A := fun w => (Abrupt e, w).

Definition try_catch {A} (m : M A) (handler : thrown -> M A) : M A :=
  fun w =>
    match m w with
    | (Normal a, w') => (Normal a, w')
    | (Abrupt e, w') => handler e w'
    end.

Definition lift {A} (c : completion A) : M A := fun w => (c, w).

Declare Scope js_scope.
Delimit Scope js_scope with js.
Notation "'let*' x ':=' m 'in' k" := (bind m (fun x => k))
  (at level 10, x name, m at level 100, k at level 200,
   format "'[v' 'let*'  x  ':='  m  'in' '/' k ']'") : js_scope.
Notation "m ';;' k" := (bind m (fun _ => k))
  (at level 100, k at level 200, right associativity,
   format "'[v' m ';;' '/' k ']'") : js_scope.
Local Open Scope js_scope.

Definition emit (e : effect) : M unit :=
  fun w => (Normal tt, mkWorld (localStorage w) (trace w ++ [e])).

(** [localStorage.getItem(k)]: [None] is [null]. *)
Definition getItem (k : string) : M (option string) :=
  fun w => (Normal (localStorage w !! k), w).

(** [localStorage.setItem(k, v)]; the storage quota is not modelled. *)
Definition setItem (k v : string) : M unit :=
  fun w => (Normal tt, mkWorld (<[k := v]> (localStorage w)) (trace w)).

Definition removeItem (k : string) : M unit :=
  fun w => (Normal tt, mkWorld (delete k (localStorage w)) (trace w)).

(** Truthiness of what [getItem] returns: neither [null] nor [""]. *)
Definition item_truthy (x : option string) : bool :=
  match x with
  | Some s => negb (String.eqb s "")
  | None => false
  end.

Definition obj_error (message code : value) : thrown :=
  Thrown (VObj [("success", VBool false); ("message", message); ("code", code)]).

Definition network_calls (w : World) : list config :=
  omap (fun e => match e with NetCall c => Some c | _ => None end) (trace w).

(** ** [src/utils/request.js] *)

Module Request.

(** [request.interceptors.request], the fulfilled handler. *)
Definition onRequest (env : Env) (c : config) : M config :=
  let* token := getItem "token" in
  let c1 :=
    if item_truthy token
    then with_header "Authorization" ("Bearer " +:+ default "" token) c
    else c in
  let c2 :=
    if String.eqb (method c1) "get"
    then with_params (<["_t" := VNum (now env)]> (default ∅ (params c1))) c1
    else c1 in
  ret c2.

(** [data.code === 200 || data.success]. *)
Definition body_ok (body : value) : completion bool :=
  match get_prop body "code" with
  | Normal (VNum 200) => Normal true
  | Normal _ =>
      match get_prop body "success" with
      | Normal s => Normal (truthy s)
      | Abrupt e => Abrupt e
      end
  | Abrupt e => Abrupt e
  end.

(** [request.interceptors.response], the fulfilled handler. *)
Definition onFulfilled (r : response) : M value :=
  let body := resp_data r in
  let* ok := lift (body_ok body) in
  if ok then
    let* d := lift (get_prop body "data") in
    ret (or_else d body)
  else
    let* m := lift (get_prop body "message") in
    let errorMessage := or_else m (VStr "请求失败") in
    throw (new_Error errorMessage).

(** [request.interceptors.response], the rejected handler. *)
Definition onRejected (error : axios_error) : M value :=
  match error with
  | WithResponse status body =>
      let* errorMessage :=
        if status =? 401 then
          removeItem "token" ;;
          emit (Navigate "/login") ;;
          ret (VStr "未授权，请重新登录")
        else if status =? 403 then ret (VStr "拒绝访问")
        else if status =? 404 then ret (VStr "请求地址不存在")
        else if status =? 500 then ret (VStr "服务器内部错误")
        else ret (or_else (get_prop_opt body "message")
                    (VStr ("请求失败 (" +:+ number_to_string status +:+ ")"))) in
      throw (new_Error errorMessage)
  | WithoutResponse code =>
      if bool_decide (code = Some "ECONNABORTED")
      then throw (new_Error (VStr "请求超时"))
      else throw (new_Error (VStr "网络错误"))
  end.

(** One call through the instance: request interceptor, the network,
    then the response interceptor that matches how the call settled. *)
Definition send (env : Env) (c : config) : M value :=
  let* c' := onRequest env c in
  emit (NetCall c') ;;
  match settle c' (server env c') with
  | inl r => onFulfilled r
  | inr error => onRejected error
  end.

Definition default_headers : gmap string string :=
  {[ "Content-Type" := "application/json" ]}.

(** A default parameter [x = {}]: the default stands in for a missing
    or [undefined] argument. *)
Definition or_empty_object (data : value) : value :=
  match data with
  | VUndefined => VObj []
  | _ => data
  end.

(** [get(url, params = {})], [post(url, data = {})], [put(url, data = {})]
    and [del(url)], each with the default empty [config]; [params] is
    [None] when the caller leaves it out. *)
Definition get (env : Env) (url : string) (params : option (gmap string value))
  : M value :=
  send env (mkConfig "get" url (Some (default ∅ params)) VUndefined default_headers).

Definition post (env : Env) (url : string) (data : value) : M value :=
  send env (mkConfig "post" url None (or_empty_object data) default_headers).

Definition put (env : Env) (url : string) (data : value) : M value :=
  send env (mkConfig "put" url None (or_empty_object data) default_headers).

Definition del (env : Env) (url : string) : M value :=
  send env (mkConfig "delete" url None VUndefined default_headers).

End Request.

(** ** [src/utils/api.js] *)

Module Api.

(** [api.interceptors.request], the fulfilled handler. *)
Definition onRequest (c : config) : M config :=
  let* token := getItem "userToken" in
  let c1 :=
    if item_truthy token
    then with_header "Authorization" ("Bearer " +:+ default "" token) c
    else c in
  ret (with_header "X-Client-Version" "1.0.0" (with_header "X-Platform" "web" c1)).

(** [api.interceptors.response], the fulfilled handler. *)
Definition onFulfilled (r : response) : M value :=
  ret (resp_data r).

(** [api.interceptors.response], the rejected handler. *)
Definition onRejected (env : Env) (error : axios_error) : M value :=
  match error with
  | WithoutResponse _ =>
      let networkError :=
        obj_error (VStr "网络连接失败，请检查网络设置") (VStr "NETWORK_ERROR") in
      emit (Confirm "网络连接失败，是否重试？") ;;
      (if confirm_answer env then emit Reload else ret tt) ;;
      throw networkError
  | WithResponse status body =>
      if status =? 401 then
        removeItem "userToken" ;;
        removeItem "userInfo" ;;
        emit (Alert "登录已过期，请重新登录") ;;
        emit Reload ;;
        throw (obj_error (VStr "登录已过期，请重新登录") (VStr "UNAUTHORIZED"))
      else if status =? 403 then
        emit (Alert "没有权限访问该资源") ;;
        throw (obj_error (VStr "没有权限访问该资源") (VStr "FORBIDDEN"))
      else if status =? 404 then
        throw (obj_error (VStr "请求的资源不存在") (VStr "NOT_FOUND"))
      else if status =? 500 then
        emit (Alert "服务器内部错误，请稍后重试") ;;
        throw (obj_error (VStr "服务器内部错误，请稍后重试") (VStr "SERVER_ERROR"))
      else
        throw (obj_error
                 (or_else (get_prop_opt body "message") (VStr "请求失败，请重试"))
                 (or_else (get_prop_opt body "code") (VStr "UNKNOWN_ERROR")))
  end.

Definition send (env : Env) (c : config) : M value :=
  let* c' := onRequest c in
  emit (NetCall c') ;;
  match settle c' (server env c') with
  | inl r => onFulfilled r
  | inr error => onRejected env error
  end.

Definition default_headers : gmap string string :=
  {[ "Content-Type" := "application/json" ]}.

(** [api.get(url)] and [api.post(url, data)]. *)
Definition get (env : Env) (url : string) : M value :=
  send env (mkConfig "get" url None VUndefined default_headers).

Definition post (env : Env) (url : string) (data : value) : M value :=
  send env (mkConfig "post" url None data default_headers).

(** The result an operation builds after a resolved call:
    [{success: true, data: response.data, message: response.message || fallback}]. *)
Definition success_result (response : value) (fallback : string) : M value :=
  let* d := lift (get_prop response "data") in
  let* m := lift (get_prop response "message") in
  ret (VObj [("success", VBool true); ("data", d);
             ("message", or_else m (VStr fallback))]).

(** The [catch] block of every operation:
    [{success: false, message: error.message || fallback, code: error.code}]. *)
Definition failure_result (fallback : string) (error : thrown) : M value :=
  let* m := lift (thrown_prop error "message") in
  let* c := lift (thrown_prop error "code") in
  ret (VObj [("success", VBool false);
             ("message", or_else m (VStr fallback)); ("code", c)]).

Record LoginData : Type := mkLoginData {
  account : value;
  password : value;
  loginType : value
}.

Definition browserInfo (n : Navigator) : value :=
  VObj [("userAgent", VStr (userAgent n)); ("platform", VStr (platform n));
        ("language", VStr (language n)); ("cookieEnabled", VBool (cookieEnabled n));
        ("onLine", VBool (onLine n))].

(** [24 * 60 * 60 * 1000]. *)
Definition token_lifetime : Z := 24 * 60 * 60 * 1000.

Definition loginUser (env : Env) (loginData : LoginData) : M value :=
  try_catch
    (let* response :=
       post env "/user/login"
         (VObj [("account", account loginData);
                ("password", password loginData);
                ("login_type", loginType loginData);
                ("browser_info", browserInfo (navigator env));
                ("platform", VStr "web")]) in
     let* d := lift (get_prop response "data") in
     (if truthy (get_prop_opt d "token") then
        let expirationTime := now env + token_lifetime in
        setItem "tokenExpiration" (number_to_string expirationTime)
      else ret tt) ;;
     success_result response "登录成功")
    (failure_result "登录失败，请重试").

(** [getUserInfo]: the local expiry check, then the call. *)
Definition getUserInfo (env : Env) : M value :=
  try_catch
    (let* expirationTime := getItem "tokenExpiration" in
     (if item_truthy expirationTime
         && gt_parsed (now env) (default "" expirationTime)
      then throw (new_Error (VStr "Token已过期"))
      else ret tt) ;;
     let* response := get env "/user/info" in
     success_result response "获取用户信息成功")
    (failure_result "获取用户信息失败").

Definition checkLoginStatus (env : Env) : M bool :=
  let* token := getItem "userToken" in
  let* expirationTime := getItem "tokenExpiration" in
  if negb (item_truthy token) then ret false
  else if item_truthy expirationTime
          && gt_parsed (now env) (default "" expirationTime)
  then
    removeItem "userToken" ;;
    removeItem "userInfo" ;;
    removeItem "tokenExpiration" ;;
    ret false
  else ret true.

(** [registerUser]; [registerData] is the object the caller passes, as
    its fields. *)
Definition registerUser (env : Env) (registerData : list (string * value)) : M value :=
  try_catch
    (let* response :=
       post env "/user/register"
         (VObj (obj_set "register_source" (VStr "web_form")
                  (obj_set "platform" (VStr "web") registerData))) in
     success_result response "注册成功")
    (failure_result "注册失败，请重试").

Record CodeData : Type := mkCodeData {
  code_account : value;
  code_type : value
}.

Definition sendVerificationCode (env : Env) (data : CodeData) : M value :=
  try_catch
    (let* response :=
       post env "/sms/send"
         (VObj [("account", code_account data);
                ("type", code_type data);
                ("platform", VStr "web")]) in
     success_result response "验证码发送成功")
    (failure_result "验证码发送失败").

Record ResetData : Type := mkResetData {
  reset_account : value;
  reset_code : value;
  reset_newPassword : value
}.

Definition resetPassword (env : Env) (data : ResetData) : M value :=
  try_catch
    (let* response :=
       post env "/user/reset-password"
         (VObj [("account", reset_account data);
                ("verification_code", reset_code data);
                ("new_password", reset_newPassword data);
                ("platform", VStr "web")]) in
     success_result response "密码重置成功")
    (failure_result "密码重置失败").

End Api.

(** ** The storage writes of [App.jsx] and of the login page *)

Module App.

(** [handleLogout], up to the React state updates. *)
Definition handleLogout : M unit :=
  removeItem "userToken" ;;
  removeItem "userInfo" ;;
  removeItem "tokenExpiration" ;;
  emit (Alert "已安全退出登录").

(** The React state of [App]. *)
Record AppState : Type := mkAppState {
  isLoggedIn : bool;
  userInfo : value;
  loading : bool
}.

(** [localStorage.clear()]. *)
Definition clearStorage : M unit :=
  fun w => (Normal tt, mkWorld ∅ (trace w)).

(** [handleLogout] with the state it leaves. *)
Definition logout (st : AppState) : M AppState :=
  removeItem "userToken" ;;
  removeItem "userInfo" ;;
  removeItem "tokenExpiration" ;;
  let st' := mkAppState false VNull (loading st) in
  emit (Alert "已安全退出登录") ;;
  ret st'.

Section WithJSON.

(** [JSON.parse]: the parsed value, or a [SyntaxError]. *)
Variable JSON_parse : string -> completion value.

(** [initializeApp], run by the effect when the component mounts. *)
Definition initializeApp (env : Env) (st : AppState) : M AppState :=
  let* st' :=
    try_catch
      (let* isValid := Api.checkLoginStatus env in
       let* savedUserInfo := getItem "userInfo" in
       if isValid && item_truthy savedUserInfo then
         let* parsed := lift (JSON_parse (default "" savedUserInfo)) in
         ret (mkAppState true parsed (loading st))
       else
         removeItem "userToken" ;;
         removeItem "userInfo" ;;
         removeItem "tokenExpiration" ;;
         ret st)
      (fun error => clearStorage ;; ret st) in
  ret (mkAppState (isLoggedIn st') (userInfo st') false).

End WithJSON.

(** [handleVisibilityChange]; [visible] is
    [document.visibilityState === 'visible']. *)
Definition handleVisibilityChange (visible : bool) (env : Env) (st : AppState)
  : M AppState :=
  if visible then
    let* isValid := Api.checkLoginStatus env in
    if negb isValid && isLoggedIn st then logout st else ret st
  else ret st.

End App.

(** ** The login page *)

Module LoginPage.

(** The React state of the form. *)
Record Form : Type := mkForm {
  loginMethod : string;
  phone : string;
  email : string;
  password : string;
  loading : bool;
  error : value
}.

Definition set_error (e : value) (f : Form) : Form :=
  mkForm (loginMethod f) (phone f) (email f) (password f) (loading f) e.

Definition set_loading (b : bool) (f : Form) : Form :=
  mkForm (loginMethod f) (phone f) (email f) (password f) b (error f).

Fixpoint all_chars (p : ascii -> bool) (s : string) : bool :=
  match s with
  | String a r => p a && all_chars p r
  | EmptyString => true
  end.

(** [\d]. *)
Definition is_digit (a : ascii) : bool :=
  ((48 <=? code a) && (code a <=? 57))%N.

(** [/^1[3-9]\d{9}$/.test(s)]. *)
Definition phone_ok (s : string) : bool :=
  match s with
  | String a (String b r) =>
      ((code a =? 49) && (51 <=? code b) && (code b <=? 57))%N
      && Nat.eqb (String.length r) 9 && all_chars is_digit r
  | _ => false
  end.

(** Some character of [s] is matched by [\s]. *)
Fixpoint has_space (s : string) : bool :=
  match s with
  | String a r1 =>
      is_ascii_space a
      || match r1 with
         | String b r2 =>
             two_byte_space a b
             || match r2 with
                | String c _ => three_byte_space a b c
                | EmptyString => false
                end
         | EmptyString => false
         end
      || has_space r1
  | EmptyString => false
  end.

Definition is_at (a : ascii) : bool := (code a =? 64)%N.
Definition is_dot (a : ascii) : bool := (code a =? 46)%N.

(** [s] is matched by [[^\s@]+]. *)
Definition plain_part (s : string) : bool :=
  negb (String.eqb s "") && negb (has_space s) && all_chars (fun a => negb (is_at a)) s.

Definition char_at (p : ascii -> bool) (i : nat) (s : string) : bool :=
  match String.get i s with
  | Some a => p a
  | None => false
  end.

(** [/^[^\s@]+@[^\s@]+\.[^\s@]+$/.test(s)]: [s] splits at an ["@"] in
    position [i] and a ["."] in position [j] into three parts matched by
    [[^\s@]+]. *)
Definition email_ok (s : string) : bool :=
  let n := String.length s in
  existsb (fun i =>
    existsb (fun j =>
      Nat.ltb i j
      && char_at is_at i s && char_at is_dot j s
      && plain_part (String.substring 0 i s)
      && plain_part (String.substring (S i) (j - S i) s)
      && plain_part (String.substring (S j) (n - S j) s))
      (seq 0 n))
    (seq 0 n).

Section WithJSON.

(** [JSON.stringify]: a string, or [undefined] ([None]). *)
Variable JSON_stringify : value -> option string.

(** What [handleLogin] does once the form passed validation. *)
Definition submit (env : Env) (account : string) (f : Form) : M Form :=
  let f1 := set_loading true f in
  let* f2 :=
    try_catch
      (let* result :=
         Api.loginUser env
           (Api.mkLoginData (VStr account) (VStr (password f)) (VStr (loginMethod f))) in
       let* ok := lift (get_prop result "success") in
       if truthy ok then
         let* d := lift (get_prop result "data") in
         let* token := lift (get_prop d "token") in
         let* text := lift (to_string token) in
         setItem "userToken" text ;;
         let* u := lift (get_prop d "userInfo") in
         setItem "userInfo" (default "undefined" (JSON_stringify u)) ;;
         emit (Alert "登录成功！") ;;
         emit Reload ;;
         ret f1
       else
         let* m := lift (get_prop result "message") in
         ret (set_error (or_else m (VStr "登录失败，请重试")) f1))
      (fun err => ret (set_error (VStr "网络错误，请检查网络连接") f1)) in
  ret (set_loading false f2).

Definition handleLogin (env : Env) (form : Form) : M Form :=
  let f := set_error (VStr "") form in
  let account := if String.eqb (loginMethod f) "phone" then phone f else email f in
  if String.eqb account "" || String.eqb (password f) "" then
    ret (set_error (VStr "请填写完整的登录信息") f)
  else if String.eqb (loginMethod f) "phone" && negb (phone_ok (phone f)) then
    ret (set_error (VStr "请输入正确的手机号格式") f)
  else if String.eqb (loginMethod f) "email" && negb (email_ok (email f)) then
    ret (set_error (VStr "请输入正确的邮箱格式") f)
  else submit env account f.

End WithJSON.

(** [handleThirdPartyLogin]. *)
Definition handleThirdPartyLogin (type : string) : M unit :=
  emit (Alert (type +:+ "登录功能开发中...")).

End LoginPage.

(** ** Vocabulary of the specification *)

Inductive client : Type := ApiClient | RequestClient.

Definition client_send (cl : client) (env : Env) (c : config) : M value :=
  match cl with
  | ApiClient => Api.send env c
  | RequestClient => Request.send env c
  end.

Definition client_onRequest (cl : client) (env : Env) (c : config) : M config :=
  match cl with
  | ApiClient => Api.onRequest c
  | RequestClient => Request.onRequest env c
  end.

Definition client_onFulfilled (cl : client) (r : response) : M value :=
  match cl with
  | ApiClient => Api.onFulfilled r
  | RequestClient => Request.onFulfilled r
  end.

(** The session store holds nothing: token, user info and expiration
    are all absent. *)
Definition session_empty (w : World) : Prop :=
  localStorage w !! "userToken" = None
  /\ localStorage w !! "userInfo" = None
  /\ localStorage w !! "tokenExpiration" = None.

(** The transport did not deliver a 2xx answer. *)
Definition is_failure (o : transport_outcome) : Prop :=
  match o with
  | Answered status _ => validateStatus status = false
  | Unanswered _ => True
  end.

(** The normalized error shape [{success: false, message, code}]. *)
Definition normalized_error (e : thrown) : Prop :=
  thrown_prop e "success" = Normal (VBool false)
  /\ (exists m, thrown_prop e "message" = Normal m /\ m <> VUndefined)
  /\ (exists c, thrown_prop e "code" = Normal c /\ c <> VUndefined).

(** The body says the call did not succeed: its status-code field is
    not the sentinel [200] and its success flag is not set. *)
Definition reports_non_success (body : value) : Prop :=
  exists c s, get_prop body "code" = Normal c /\ c <> VNum 200
    /\ get_prop body "success" = Normal s /\ truthy s = false.

(** The body carries the success indicator. *)
Definition reports_success (body : value) : Prop :=
  get_prop body "code" = Normal (VNum 200)
  \/ exists c s, get_prop body "code" = Normal c
       /\ get_prop body "success" = Normal s /\ truthy s = true.

(** The cache-busting parameter a client puts on an outgoing request. *)
Definition cache_buster (cl : client) (env : Env) (c : config) (w : World)
  : option value :=
  match fst (client_onRequest cl env c w) with
  | Normal c' => default ∅ (params c') !! "_t"
  | Abrupt _ => None
  end.

(** [isValid()] of the session store is [checkLoginStatus]. *)
Definition isValid (env : Env) (w : World) : completion bool :=
  fst (Api.checkLoginStatus env w).

Definition after_isValid (env : Env) (w : World) : World :=
  snd (Api.checkLoginStatus env w).

(** The expiration the store records, as the code reads it. *)
Definition stored_expiration (w : World) : option Z :=
  match localStorage w !! "tokenExpiration" with
  | Some s => parseInt s
  | None => None
  end.

(** The error is an answer with status 401. *)
Definition is_unauthorized (error : axios_error) : bool :=
  match error with
  | WithResponse status _ => status =? 401
  | WithoutResponse _ => false
  end.

(** The result objects of the operations of [api.js]. *)
Definition success_object (d m : value) : value :=
  VObj [("success", VBool true); ("data", d); ("message", m)].

Definition failure_object (m c : value) : value :=
  VObj [("success", VBool false); ("message", m); ("code", c)].

(** The operations of [api.js] that post a payload. *)
Inductive post_operation : Type :=
| OpLogin (loginData : Api.LoginData)
| OpRegister (registerData : list (string * value))
| OpSendCode (data : Api.CodeData)
| OpReset (data : Api.ResetData).

Definition run_post (env : Env) (op : post_operation) : M value :=
  match op with
  | OpLogin loginData => Api.loginUser env loginData
  | OpRegister registerData => Api.registerUser env registerData
  | OpSendCode data => Api.sendVerificationCode env data
  | OpReset data => Api.resetPassword env data
  end.

(** The shape [registerUser], [sendVerificationCode] and [resetPassword]
    share. *)
Definition simple_call (env : Env) (c : config) (fb fb' : string) : M value :=
  try_catch
    (bind (Api.send env c) (fun response => Api.success_result response fb))
    (Api.failure_result fb').

(** The request each posting operation hands to the instance. *)
Definition post_request (env : Env) (op : post_operation) : config :=
  match op with
  | OpLogin loginData =>
      mkConfig "post" "/user/login" None
        (VObj [("account", Api.account loginData);
               ("password", Api.password loginData);
               ("login_type", Api.loginType loginData);
               ("browser_info", Api.browserInfo (navigator env));
               ("platform", VStr "web")])
        Api.default_headers
  | OpRegister registerData =>
      mkConfig "post" "/user/register" None
        (VObj (obj_set "register_source" (VStr "web_form")
                 (obj_set "platform" (VStr "web") registerData)))
        Api.default_headers
  | OpSendCode data =>
      mkConfig "post" "/sms/send" None
        (VObj [("account", Api.code_account data); ("type", Api.code_type data);
               ("platform", VStr "web")])
        Api.default_headers
  | OpReset data =>
      mkConfig "post" "/user/reset-password" None
        (VObj [("account", Api.reset_account data);
               ("verification_code", Api.reset_code data);
               ("new_password", Api.reset_newPassword data);
               ("platform", VStr "web")])
        Api.default_headers
  end.

(** The message an operation reports when the body has none. *)
Definition success_text (op : post_operation) : string :=
  match op with
  | OpLogin _ => "登录成功"
  | OpRegister _ => "注册成功"
  | OpSendCode _ => "验证码发送成功"
  | OpReset _ => "密码重置成功"
  end.

(** What a resolved call makes an operation write to the store. *)
Definition store_after_success (env : Env) (op : post_operation) (d : value)
    (st : gmap string string) : gmap string string :=
  match op with
  | OpLogin _ =>
      if truthy (get_prop_opt d "token")
      then <["tokenExpiration" := number_to_string (now env + 86400000)]> st
      else st
  | _ => st
  end.

(** The account the form submits, and whether the form passes the
    checks of [handleLogin]. *)
Definition account_of (f : LoginPage.Form) : string :=
  if String.eqb (LoginPage.loginMethod f) "phone"
  then LoginPage.phone f else LoginPage.email f.

Definition form_ok (f : LoginPage.Form) : bool :=
  negb (String.eqb (account_of f) "" || String.eqb (LoginPage.password f) "")
  && negb (String.eqb (LoginPage.loginMethod f) "phone"
           && negb (LoginPage.phone_ok (LoginPage.phone f)))
  && negb (String.eqb (LoginPage.loginMethod f) "email"
           && negb (LoginPage.email_ok (LoginPage.email f))).

(** A filled-in phone form, and one with a malformed number. *)
Definition phone_form : LoginPage.Form :=
  LoginPage.mkForm "phone" "13800000000" "" "secret" false (VStr "").

Definition bad_phone_form : LoginPage.Form :=
  LoginPage.mkForm "phone" "12800000000" "" "secret" false (VStr "").

(** A 200 whose token is an object with a key [toString] of its own. *)
Definition unprintable_login : value :=
  VObj [("data", VObj [("token", VObj [("toString", VNum 1)])])].

(** A stub for [JSON.parse] and one for [JSON.stringify], for instances. *)
Definition parse_stub (s : string) : completion value :=
  if String.eqb s "oops" then Abrupt (ErrorObject "SyntaxError" "Unexpected token")
  else Normal (VObj [("raw", VStr s)]).

Definition stringify_stub (v : value) : option string :=
  match v with
  | VUndefined => None
  | VStr s => Some s
  | _ => Some "{}"
  end.

(** ** Stores, answers and environments used as instances *)

(** A session whose token was issued long ago. *)
Definition stale_session : World :=
  mkWorld (<["userToken" := "t1"]> (<["userInfo" := "u1"]>
            (<["tokenExpiration" := "1000"]> ∅))) [].

Definition some_navigator : Navigator := mkNavigator "ua" "Linux" "zh-CN" true true.

(** An environment whose clock reads [t] and whose network settles
    every request as [o]. *)
Definition env_at (t : Z) (o : transport_outcome) : Env :=
  mkEnv t false some_navigator (fun _ => o).

Definition login_payload : value :=
  VObj [("token", VStr "t1"); ("userInfo", VObj [("id", VNum 1)])].

(** Every request is answered 404. *)
Definition not_found_env : Env := env_at 0 (Answered 404 VNull).

(** [GET /user/info] as handed to the request interceptor. *)
Definition info_request : config :=
  mkConfig "get" "/user/info" None VUndefined ∅.

(** A fresh browser profile. *)
Definition empty_world : World := mkWorld ∅ [].

(** A 200 whose body says the password was wrong. *)
Definition rejected_login : response :=
  mkResponse 200
    (VObj [("code", VNum 500); ("success", VBool false);
           ("message", VStr "bad password")]) info_request.

(** The clock reads [t]; the network is down. *)
Definition env_ms (t : Z) : Env := env_at t (Unanswered None).

(** A session that expires at 1000. *)
Definition boundary_session : World :=
  mkWorld (<["userToken" := "t1"]> (<["tokenExpiration" := "1000"]> ∅)) [].

(** The store a 401 through [api.js] leaves of [stale_session]. *)
Definition tokenless_session : World :=
  mkWorld (<["tokenExpiration" := "1000"]> ∅) [].

(** The login page stored an empty token. *)
Definition empty_token_session : World :=
  mkWorld (<["userToken" := ""]> (<["tokenExpiration" := "abc"]> ∅)) [].

(** A session whose expiration is not a number. *)
Definition corrupt_session : World :=
  mkWorld (<["userToken" := "t1"]> (<["tokenExpiration" := "abc"]> ∅)) [].

(** The clock reads [t]; the server accepts the login. *)
Definition login_env (t : Z) : Env :=
  env_at t (Answered 200
              (VObj [("code", VNum 200); ("data", login_payload);
                     ("message", VStr "ok")])).

Definition some_login : Api.LoginData :=
  Api.mkLoginData (VStr "13800000000") (VStr "secret") (VStr "phone").

(** A successful answer whose payload is the number 0. *)
Definition zero_answer : response :=
  mkResponse 200 (VObj [("code", VNum 200); ("data", VNum 0)]) info_request.

(** ** Running monadic code *)

Tactic Notation "run" "in" hyp(H) :=
  unfold try_catch, bind, ret, throw, lift, emit, getItem, setItem, removeItem in H;
  cbn [fst snd localStorage trace] in H.

Ltac run :=
  unfold Api.checkLoginStatus, Api.getUserInfo, Api.loginUser, Api.post, Api.get,
    Api.send, Api.onRequest, Api.onFulfilled, Api.onRejected,
    Api.success_result, Api.failure_result,
    Request.send, Request.onRequest, Request.onFulfilled, Request.onRejected,
    try_catch, bind, ret, throw, lift, emit, getItem, setItem, removeItem;
  cbn [fst snd localStorage trace].

(** * Properties *)

(** ** The JavaScript primitives on small inputs *)

Example parseInt_ex1 : parseInt "1000" = Some 1000. Proof. reflexivity. Qed.
Example parseInt_ex2 : parseInt " -12px" = Some (-12). Proof. reflexivity. Qed.
Example parseInt_ex3 : parseInt "0x1F" = Some 31. Proof. reflexivity. Qed.
Example parseInt_ex4 : parseInt "abc" = None. Proof. reflexivity. Qed.
Example parseInt_ex5 : parseInt "" = None. Proof. reflexivity. Qed.
Example to_string_ex1 :
  to_string (VArr [VNum 1; VNull; VStr "a"]) = Normal "1,,a".
Proof. reflexivity. Qed.
Example Number_toString_ex :
  map Number_toString
    [0; -13; 2 ^ 53; 2 ^ 53 + 1; 2 ^ 60; 123456789012345678901; 10 ^ 21;
     2 ^ 70; - 10 ^ 23; 10 ^ 400]
  = ["0"; "-13"; "9007199254740992"; "9007199254740992"; "1152921504606847000";
     "123456789012345680000"; "1e+21"; "1.1805916207174113e+21"; "-1e+23";
     "Infinity"].
Proof. vm_compute. reflexivity. Qed.
Example to_string_ex2 :
  to_string (VArr [VObj []; VArr [VBool true; VUndefined]; VNum (10 ^ 21)])
  = Normal "[object Object],true,,1e+21"
  /\ to_string (VArr [VStr "a"; VObj [("toString", VNull)]]) = Abrupt not_primitive.
Proof. split; reflexivity. Qed.
Example number_to_string_ex : number_to_string 86401000 = "86401000".
Proof. reflexivity. Qed.
Example utf8_ex : String.length "请求失败" = 12%nat. Proof. reflexivity. Qed.

(** ** Printing a time value and reading it back *)

Section ParseIntRoundTrip.

Lemma code_pretty_N_char (d : N) :
  (d < 10)%N -> code (pretty_N_char d) = (48 + d)%N.
Proof.
  intros Hd.
  assert (d = 0 \/ d = 1 \/ d = 2 \/ d = 3 \/ d = 4 \/ d = 5 \/ d = 6
          \/ d = 7 \/ d = 8 \/ d = 9)%N as Hcases by lia.
  repeat (destruct Hcases as [-> | Hcases]; [reflexivity|]).
  subst d; reflexivity.
Qed.

Lemma digit_of_code (c : ascii) (d : N) :
  (d < 10)%N -> code c = (48 + d)%N -> digit_of 10 c = Some (Z.of_N d).
Proof.
  intros Hd Hc. unfold digit_of. rewrite Hc.
  replace ((48 <=? Z.of_N (48 + d)) && (Z.of_N (48 + d) <=? 57)) with true
    by (symmetry; apply andb_true_iff; split; apply Z.leb_le; lia).
  replace (Z.of_N (48 + d) - 48 <? 10) with true
    by (symmetry; apply Z.ltb_lt; lia).
  f_equal. lia.
Qed.

Lemma parse_digits_pretty_N_go (x : N) (s : string) :
  (0 < x)%N ->
  parse_digits 10 None (pretty_N_go x s) = parse_digits 10 (Some (Z.of_N x)) s.
Proof.
  revert s. induction (N.lt_wf_0 x) as [x _ IH]; intros s Hx.
  rewrite pretty_N_go_step by assumption.
  assert (x `mod` 10 < 10)%N as Hmod by (apply N.mod_lt; lia).
  pose proof (digit_of_code _ _ Hmod (code_pretty_N_char _ Hmod)) as Hdig.
  destruct (decide (x `div` 10 = 0)%N) as [Hz | Hnz].
  - rewrite Hz, pretty_N_go_0. cbn [parse_digits]. rewrite Hdig. cbn [default].
    do 2 f_equal. pose proof (N.div_mod x 10). lia.
  - rewrite IH; [| apply N.div_lt; lia | apply N.neq_0_lt_0; assumption].
    cbn [parse_digits]. rewrite Hdig. cbn [default]. unfold id.
    do 2 f_equal. pose proof (N.div_mod x 10). lia.
Qed.

(** The printed digits start with a digit, and what follows the first
    one is the given tail or starts with a digit too. *)
Lemma pretty_N_go_head (x : N) (s : string) :
  (0 < x)%N ->
  exists d r, (d < 10)%N /\ pretty_N_go x s = String (pretty_N_char d) r
    /\ (r = s \/ exists d' r', (d' < 10)%N /\ r = String (pretty_N_char d') r').
Proof.
  revert s. induction (N.lt_wf_0 x) as [x _ IH]; intros s Hx.
  rewrite pretty_N_go_step by assumption.
  assert (x `mod` 10 < 10)%N as Hmod by (apply N.mod_lt; lia).
  destruct (decide (x `div` 10 = 0)%N) as [Hz | Hnz].
  - rewrite Hz, pretty_N_go_0. exists (x `mod` 10)%N, s. auto.
  - destruct (IH (x `div` 10)%N) with (s := String (pretty_N_char (x `mod` 10)) s)
      as (d & r & Hd & Heq & Hr);
      [apply N.div_lt; lia | apply N.neq_0_lt_0; assumption |].
    exists d, r. split; [assumption|]. split; [assumption|].
    right. destruct Hr as [-> | Hr]; [|assumption].
    exists (x `mod` 10)%N, s. auto.
Qed.

Lemma trim_start_plain (a : ascii) (r : string) :
  (code a < 128)%N -> is_ascii_space a = false ->
  trim_start (String a r) = String a r.
Proof.
  intros Ha Hsp. cbn [trim_start]. rewrite Hsp.
  destruct r as [|b r2]; [reflexivity|].
  replace (two_byte_space a b) with false
    by (unfold two_byte_space; destruct (N.eqb_spec (code a) 194); [lia | reflexivity]).
  destruct r2 as [|c r3]; [reflexivity|].
  replace (three_byte_space a b c) with false; [reflexivity|].
  unfold three_byte_space.
  destruct (N.eqb_spec (code a) 225); [lia|].
  destruct (N.eqb_spec (code a) 226); [lia|].
  destruct (N.eqb_spec (code a) 227); [lia|].
  destruct (N.eqb_spec (code a) 239); [lia|]. reflexivity.
Qed.

(** Reading back the digits of a positive number. *)
Lemma parse_unsigned (x : N) :
  (0 < x)%N ->
  let p := pretty_N_go x "" in
  trim_start p = p /\ split_sign p = (1, p) /\ split_radix p = (10, p)
  /\ parse_digits 10 None p = Some (Z.of_N x).
Proof.
  intros Hx p. subst p.
  destruct (pretty_N_go_head x "" Hx) as (d & r & Hd & Heq & Hr).
  pose proof (code_pretty_N_char d Hd) as Hc.
  repeat split.
  - rewrite Heq. apply trim_start_plain; [lia|].
    unfold is_ascii_space. rewrite Hc.
    destruct (N.leb_spec (48 + d) 13); [lia|].
    destruct (N.eqb_spec (48 + d) 32); [lia|].
    rewrite andb_false_r. reflexivity.
  - rewrite Heq. unfold split_sign. rewrite Hc.
    destruct (N.eqb_spec (48 + d) 45); [lia|].
    destruct (N.eqb_spec (48 + d) 43); [lia|]. reflexivity.
  - rewrite Heq. destruct Hr as [-> | (d' & r' & Hd' & ->)]; [reflexivity|].
    unfold split_radix. rewrite (code_pretty_N_char d' Hd').
    destruct (N.eqb_spec (48 + d') 120); [lia|].
    destruct (N.eqb_spec (48 + d') 88); [lia|].
    rewrite andb_false_r. reflexivity.
  - rewrite parse_digits_pretty_N_go by assumption. reflexivity.
Qed.

Lemma parseInt_number_to_string (n : Z) :
  parseInt (number_to_string n) = Some n.
Proof.
  unfold number_to_string, pretty, pretty_Z. destruct n as [|p|p].
  - reflexivity.
  - unfold pretty, pretty_positive, pretty, pretty_N.
    destruct (decide (N.pos p = 0%N)) as [?|_]; [discriminate|].
    destruct (parse_unsigned (N.pos p)) as (Ht & Hs & Hr & Hp); [lia|].
    unfold parseInt. rewrite Ht, Hs, Hr, Hp. reflexivity.
  - unfold pretty, pretty_positive, pretty, pretty_N.
    destruct (decide (N.pos p = 0%N)) as [?|_]; [discriminate|].
    destruct (parse_unsigned (N.pos p)) as (Ht & Hs & Hr & Hp); [lia|].
    unfold parseInt.
    change ("-" +:+ pretty_N_go (N.pos p) "")
      with (String "-"%char (pretty_N_go (N.pos p) "")).
    rewrite trim_start_plain by reflexivity.
    change (split_sign (String "-"%char (pretty_N_go (N.pos p) "")))
      with (-1, pretty_N_go (N.pos p) "").
    cbv beta iota. rewrite Hr, Hp. reflexivity.
Qed.

End ParseIntRoundTrip.

(** ** C1: a 401 and the session store *)

(** C1 (evaluation at the failing input).  On a 401 the rejected handler
    of [api.js] removes the token and the user info and leaves the
    expiration timestamp in the store, so the session store is not empty
    afterwards. *)
Theorem C1_unauthorized_leaves_expiration (env : Env) (body : value) :
  let w' := snd (Api.onRejected env (WithResponse 401 body) stale_session) in
  localStorage w' !! "userToken" = None
  /\ localStorage w' !! "userInfo" = None
  /\ localStorage w' !! "tokenExpiration" = Some "1000"
  /\ ~ session_empty w'.
Proof.
  cbv zeta.
  assert (localStorage (Api.onRejected env (WithResponse 401 body) stale_session).2
            !! "tokenExpiration" = Some "1000") as Hexp by reflexivity.
  repeat split; try reflexivity.
  intros (_ & _ & Habs). rewrite Hexp in Habs. discriminate.
Qed.

(** What the 401 branch of [api.js] does to an arbitrary store. *)
Lemma Api_unauthorized_storage (env : Env) (body : value) (w : World) :
  localStorage (snd (Api.onRejected env (WithResponse 401 body) w))
  = delete "userInfo" (delete "userToken" (localStorage w)).
Proof. reflexivity. Qed.

Lemma Api_unauthorized_keeps_expiration (env : Env) (body : value) (w : World) :
  localStorage (snd (Api.onRejected env (WithResponse 401 body) w)) !! "tokenExpiration"
  = localStorage w !! "tokenExpiration".
Proof.
  rewrite Api_unauthorized_storage.
  rewrite lookup_delete_ne by discriminate.
  rewrite lookup_delete_ne by discriminate. reflexivity.
Qed.

(** The 401 branch of [request.js] removes the key [token], the only
    one that client reads. *)
Lemma Request_unauthorized_storage (body : value) (w : World) :
  localStorage (snd (Request.onRejected (WithResponse 401 body) w))
  = delete "token" (localStorage w).
Proof. reflexivity. Qed.

Example tokenless_session_after_401 :
  localStorage (snd (Api.onRejected not_found_env (WithResponse 401 VNull) stale_session))
  = localStorage tokenless_session.
Proof. reflexivity. Qed.

(** The logout path removes all three entries. *)
Lemma handleLogout_empties (w : World) :
  session_empty (snd (App.handleLogout w)).
Proof.
  unfold session_empty, App.handleLogout. run.
  repeat split.
  - rewrite !lookup_delete_ne by discriminate. apply lookup_delete_eq.
  - rewrite lookup_delete_ne by discriminate. apply lookup_delete_eq.
  - apply lookup_delete_eq.
Qed.

(** ** How a call runs through an instance *)

(** The request interceptor never fails and leaves the world alone; the
    call is then logged and handed to the handler that matches how the
    transport settled it. *)
Lemma Api_send_settles (env : Env) (c : config) (w : World) :
  exists c',
    Api.onRequest c w = (Normal c', w)
    /\ Api.send env c w
       = match settle c' (server env c') with
         | inl r => Api.onFulfilled r
         | inr error => Api.onRejected env error
         end (mkWorld (localStorage w) (trace w ++ [NetCall c'])).
Proof.
  eexists. split.
  - unfold Api.onRequest, bind, getItem, ret. destruct w. reflexivity.
  - reflexivity.
Qed.

Lemma Request_send_settles (env : Env) (c : config) (w : World) :
  exists c',
    Request.onRequest env c w = (Normal c', w)
    /\ Request.send env c w
       = match settle c' (server env c') with
         | inl r => Request.onFulfilled r
         | inr error => Request.onRejected error
         end (mkWorld (localStorage w) (trace w ++ [NetCall c'])).
Proof.
  eexists. split.
  - unfold Request.onRequest, bind, getItem, ret. destruct w. reflexivity.
  - reflexivity.
Qed.

(** ** C2: failures and the normalized error shape *)

Lemma obj_error_normalized (m c : value) :
  m <> VUndefined -> c <> VUndefined -> normalized_error (obj_error m c).
Proof.
  intros Hm Hc. unfold normalized_error, obj_error. cbn.
  split; [reflexivity|]. split; eauto.
Qed.

Lemma or_else_defined (a : value) (s : string) : or_else a (VStr s) <> VUndefined.
Proof.
  unfold or_else. destruct (truthy a) eqn:Ha; [|discriminate].
  intros ->. discriminate.
Qed.

Lemma Error_not_normalized (name message : string) :
  ~ normalized_error (ErrorObject name message).
Proof. intros (Hs & _). cbn in Hs. discriminate. Qed.

(** Every failure that reaches the rejected handler of [api.js] is
    rejected with the object literal. *)
Lemma Api_onRejected_normalized (env : Env) (error : axios_error) (w : World) :
  exists e w', Api.onRejected env error w = (Abrupt e, w') /\ normalized_error e.
Proof.
  destruct error as [status body | code]; unfold Api.onRejected.
  - destruct (status =? 401); [|destruct (status =? 403);
      [|destruct (status =? 404); [|destruct (status =? 500)]]];
      run; do 2 eexists; (split; [reflexivity|]);
      apply obj_error_normalized; try discriminate; apply or_else_defined.
  - destruct (confirm_answer env); run;
      do 2 eexists; (split; [reflexivity|]);
      apply obj_error_normalized; discriminate.
Qed.

(** The one thing [ToString] can throw on a value of a body. *)
Lemma to_string_throws :
  forall (v : value) (e : thrown), to_string v = Abrupt e -> e = not_primitive.
Proof.
  fix IH 1. intros v e. destruct v as [| |b|n|s|items|fields]; cbn [to_string].
  - discriminate.
  - discriminate.
  - destruct b; discriminate.
  - discriminate.
  - discriminate.
  - match goal with |- match ?texts items with _ => _ end = _ -> _ =>
      assert (forall e0, texts items = Abrupt e0 -> e0 = not_primitive) as Hitems
    end.
    { induction items as [|x rest IHrest]; intros e0; [discriminate|].
      destruct (match x with VUndefined | VNull => Normal "" | _ => to_string x end)
        as [s|e'] eqn:Hx.
      - match goal with |- match ?t with _ => _ end = _ -> _ =>
          destruct t as [ts|e''] eqn:Hrest end.
        + discriminate.
        + intros [= <-]. exact (IHrest _ eq_refl).
      - intros [= <-].
        assert (to_string x = Abrupt e') as Hx'
          by (destruct x; try discriminate; exact Hx).
        exact (IH x _ Hx'). }
    match goal with |- match ?t with _ => _ end = _ -> _ =>
      destruct t as [ts|e0] eqn:Ht end.
    + discriminate.
    + intros [= <-]. exact (Hitems _ eq_refl).
  - destruct (assoc "toString" fields); [intros [= <-]; reflexivity | discriminate].
Qed.

(** [new Error(v)] ends with an [Error] instance: the [Error] itself, or
    the [TypeError] of the conversion. *)
Lemma new_Error_instance (v : value) :
  exists name message,
    new_Error v = ErrorObject name message
    /\ (name = "Error" \/ name = "TypeError").
Proof.
  unfold new_Error.
  destruct (to_string v) as [s|e] eqn:Hs.
  - destruct v; eauto.
  - apply to_string_throws in Hs as ->.
    destruct v; unfold not_primitive; eauto.
Qed.

Lemma new_Error_text (m : value) (text : string) :
  truthy m = true -> to_string m = Normal text ->
  new_Error m = ErrorObject "Error" text.
Proof.
  intros Htruthy Htext. unfold new_Error. rewrite Htext.
  destruct m; try reflexivity. discriminate.
Qed.

Lemma new_Error_no_text (m : value) (e : thrown) :
  to_string m = Abrupt e -> new_Error m = e.
Proof.
  intros Htext. unfold new_Error. rewrite Htext.
  destruct m; try reflexivity. discriminate.
Qed.

Lemma new_Error_string (s : string) : new_Error (VStr s) = ErrorObject "Error" s.
Proof. reflexivity. Qed.

(** Every failure that reaches the rejected handler of [request.js] is
    rejected with an [Error] instance. *)
Lemma Request_onRejected_Error (error : axios_error) (w : World) :
  exists name message w',
    Request.onRejected error w = (Abrupt (ErrorObject name message), w')
    /\ (name = "Error" \/ name = "TypeError").
Proof.
  destruct error as [status body | code]; unfold Request.onRejected.
  - destruct (status =? 401); [|destruct (status =? 403);
      [|destruct (status =? 404); [|destruct (status =? 500)]]];
      run; rewrite ?new_Error_string; try (do 3 eexists; split; [reflexivity | auto]).
    destruct (new_Error_instance
                (or_else (get_prop_opt body "message")
                   (VStr ("请求失败 (" +:+ number_to_string status +:+ ")"))))
      as (name & message & -> & Hname).
    do 3 eexists. split; [reflexivity | exact Hname].
  - case_bool_decide; run; rewrite new_Error_string;
      do 3 eexists; (split; [reflexivity | auto]).
Qed.

Lemma settle_failure (c : config) (o : transport_outcome) :
  is_failure o -> exists error, settle c o = inr error.
Proof.
  destruct o as [status body | code]; cbn; intros H.
  - rewrite H. eauto.
  - eauto.
Qed.

(** C2 (counterexample).  The claim, for both clients: every failed call
    is rejected with a value of the normalized shape.  [request.js]
    answers a 404 with a bare [Error], which has no [success] and no
    [code]. *)
Lemma C2_request_rejects_with_bare_Error :
  ~ (forall (cl : client) (env : Env) (c : config) (w : World),
       (forall c', is_failure (server env c')) ->
       exists e w', client_send cl env c w = (Abrupt e, w') /\ normalized_error e).
Proof.
  intros H.
  destruct (H RequestClient (env_at 0 (Answered 404 VNull))
              (mkConfig "get" "/user/info" None VUndefined ∅)
              (mkWorld ∅ [])) as (e & w' & Hrun & Hnorm).
  { intros c'. reflexivity. }
  vm_compute in Hrun. injection Hrun as <- _.
  exact (Error_not_normalized _ _ Hnorm).
Qed.

(** C2 (amended).  No failed call resolves.  A failed call through
    [api.js] is rejected with [{success: false, message, code}]; a failed
    call through [request.js] is rejected with an [Error] instance (the
    [Error] the handler builds, or the [TypeError] raised when the body's
    message cannot be turned into a string) that carries a message
    only, not the normalized shape. *)
Theorem C2_failures_are_rejections (env : Env) (c : config) (w : World) :
  (forall c', is_failure (server env c')) ->
  (exists e w', Api.send env c w = (Abrupt e, w') /\ normalized_error e)
  /\ (exists name message w',
        Request.send env c w = (Abrupt (ErrorObject name message), w')
        /\ (name = "Error" \/ name = "TypeError")
        /\ ~ normalized_error (ErrorObject name message)).
Proof.
  intros Hfail. split.
  - destruct (Api_send_settles env c w) as (c' & _ & ->).
    destruct (settle_failure c' _ (Hfail c')) as (error & ->).
    apply Api_onRejected_normalized.
  - destruct (Request_send_settles env c w) as (c' & _ & ->).
    destruct (settle_failure c' _ (Hfail c')) as (error & ->).
    destruct (Request_onRejected_Error error
                (mkWorld (localStorage w) (trace w ++ [NetCall c'])))
      as (name & m & w' & Hr & Hname).
    exists name, m, w'. split; [exact Hr|].
    split; [exact Hname | apply Error_not_normalized].
Qed.

(** C2 at a 404 on a fresh profile. *)
Lemma C2_failures_are_rejections_witness :
  (forall c', is_failure (server not_found_env c'))
  /\ ((exists e w', Api.send not_found_env info_request empty_world = (Abrupt e, w')
                    /\ normalized_error e)
      /\ (exists name message w',
            Request.send not_found_env info_request empty_world
            = (Abrupt (ErrorObject name message), w')
            /\ (name = "Error" \/ name = "TypeError")
            /\ ~ normalized_error (ErrorObject name message))).
Proof.
  split.
  - intros c'. reflexivity.
  - apply (C2_failures_are_rejections not_found_env info_request empty_world).
    intros c'. reflexivity.
Defined.

(** ** C3: a 2xx answer whose body reports a failure *)

Lemma body_ok_non_success (body : value) :
  reports_non_success body -> Request.body_ok body = Normal false.
Proof.
  intros (c & s & Hc & Hne & Hs & Hf). unfold Request.body_ok.
  rewrite Hc, Hs, Hf.
  destruct c as [| |b|n|x|l|l]; try reflexivity.
  destruct (decide (n = 200)) as [-> | Hn]; [congruence|].
  destruct n as [|p|p]; try reflexivity.
  repeat (destruct p as [p|p|]; try reflexivity). congruence.
Qed.

(** C3 (counterexample).  The claim, for both clients: a 2xx answer
    whose body reports non-success is rejected with the body's message.
    The fulfilled handler of [api.js] resolves with the body whatever it
    reports. *)
Lemma C3_api_resolves_business_failure :
  ~ (forall (cl : client) (r : response) (w : World),
       validateStatus (resp_status r) = true ->
       reports_non_success (resp_data r) ->
       exists e w', client_onFulfilled cl r w = (Abrupt e, w')
         /\ thrown_prop e "message" = get_prop (resp_data r) "message").
Proof.
  intros H.
  destruct (H ApiClient
              (mkResponse 200
                 (VObj [("code", VNum 500); ("success", VBool false);
                        ("message", VStr "bad password")]) info_request)
              empty_world) as (e & w' & Hrun & _).
  - reflexivity.
  - exists (VNum 500), (VBool false). repeat split; discriminate.
  - discriminate.
Qed.

(** C3 (amended).  Through [request.js], a 2xx answer whose body reports
    non-success is rejected, and the world is left alone.  When the
    body's message field is falsy the rejection is an [Error] with the
    text "请求失败"; when it is truthy the rejection is an [Error] whose
    message is the text of that field, a non-empty string being carried
    as it is, or, when the field has no text (an object with a key
    [toString] of its own), the [TypeError] of the conversion.  Through
    [api.js] the same answer resolves with the body. *)
Theorem C3_business_failure (r : response) (w : World) :
  validateStatus (resp_status r) = true ->
  reports_non_success (resp_data r) ->
  (exists m name message,
     get_prop (resp_data r) "message" = Normal m
     /\ Request.onFulfilled r w = (Abrupt (ErrorObject name message), w)
     /\ (truthy m = false -> name = "Error" /\ message = "请求失败")
     /\ (forall s, m = VStr s -> s <> "" -> name = "Error" /\ message = s)
     /\ (truthy m = true -> forall text, to_string m = Normal text ->
           name = "Error" /\ message = text)
     /\ (truthy m = true -> forall e, to_string m = Abrupt e ->
           name = "TypeError"))
  /\ Api.onFulfilled r w = (Normal (resp_data r), w).
Proof.
  intros _ Hbody. split; [|reflexivity].
  pose proof (body_ok_non_success _ Hbody) as Hok.
  destruct Hbody as (c & s & Hc & _).
  assert (exists m, get_prop (resp_data r) "message" = Normal m) as (m & Hm).
  { destruct (resp_data r); try discriminate; cbn; eauto. }
  assert (Request.onFulfilled r w
          = (Abrupt (new_Error (or_else m (VStr "请求失败"))), w)) as Hrun.
  { unfold Request.onFulfilled. run. rewrite Hok, Hm. reflexivity. }
  rewrite Hrun. unfold or_else.
  destruct (truthy m) eqn:Htruthy.
  - destruct (to_string m) as [text | e] eqn:Htext.
    + exists m, "Error", text. split; [exact Hm|].
      split; [rewrite (new_Error_text m text Htruthy Htext); reflexivity|].
      split; [intros; congruence|].
      split; [intros s' -> _; cbn in Htext; injection Htext as <-; auto|].
      split; [intros _ text' Ht'; split; congruence | intros; congruence].
    + pose proof (to_string_throws _ _ Htext) as ->.
      exists m, "TypeError", "Cannot convert object to primitive value".
      split; [exact Hm|].
      split; [rewrite (new_Error_no_text m _ Htext); reflexivity|].
      split; [intros; congruence|].
      split; [intros s' -> _; discriminate Htext|].
      split; [intros; congruence | auto].
  - exists m, "Error", "请求失败". split; [exact Hm|].
    split; [reflexivity|]. split; [auto|].
    split; [|split; intros; congruence].
    intros s' -> Hne. cbn in Htruthy.
    destruct (String.eqb_spec s' ""); [contradiction | discriminate].
Qed.

Lemma rejected_login_reports_non_success :
  reports_non_success (resp_data rejected_login).
Proof. exists (VNum 500), (VBool false). repeat split; discriminate. Qed.

(** C3 at a rejected login. *)
Lemma C3_business_failure_witness :
  validateStatus (resp_status rejected_login) = true
  /\ reports_non_success (resp_data rejected_login)
  /\ ((exists m name message,
         get_prop (resp_data rejected_login) "message" = Normal m
         /\ Request.onFulfilled rejected_login empty_world
            = (Abrupt (ErrorObject name message), empty_world)
         /\ (truthy m = false -> name = "Error" /\ message = "请求失败")
         /\ (forall s, m = VStr s -> s <> "" -> name = "Error" /\ message = s)
         /\ (truthy m = true -> forall text, to_string m = Normal text ->
               name = "Error" /\ message = text)
         /\ (truthy m = true -> forall e, to_string m = Abrupt e ->
               name = "TypeError"))
      /\ Api.onFulfilled rejected_login empty_world
         = (Normal (resp_data rejected_login), empty_world)).
Proof.
  split; [reflexivity|]. split; [exact rejected_login_reports_non_success|].
  apply (C3_business_failure rejected_login empty_world).
  - reflexivity.
  - exact rejected_login_reports_non_success.
Defined.

(** The handler on three failed bodies: a string message, a huge number
    and an object that has no text. *)
Example business_failure_texts :
  fst (Request.onFulfilled rejected_login empty_world)
  = Abrupt (ErrorObject "Error" "bad password")
  /\ fst (Request.onFulfilled
            (mkResponse 200 (VObj [("message", VNum (10 ^ 21))]) info_request)
            empty_world)
     = Abrupt (ErrorObject "Error" "1e+21")
  /\ fst (Request.onFulfilled
            (mkResponse 200 (VObj [("message", VObj [("toString", VNum 1)])])
               info_request)
            empty_world)
     = Abrupt not_primitive.
Proof. repeat split. Qed.

(** ** C4: the cache-busting parameter *)

Lemma Request_cache_buster (env : Env) (c : config) (w : World) :
  method c = "get" ->
  cache_buster RequestClient env c w = Some (VNum (now env)).
Proof.
  intros Hget. unfold cache_buster, client_onRequest, Request.onRequest.
  run.
  assert (method (if item_truthy (localStorage w !! "token")
                  then with_header "Authorization"
                         ("Bearer " +:+ default "" (localStorage w !! "token")) c
                  else c) = "get") as ->
    by (destruct (item_truthy _); exact Hget).
  cbn. apply lookup_insert_eq.
Qed.

(** [api.js] never touches the query parameters. *)
Lemma Api_cache_buster (env : Env) (c : config) (w : World) :
  cache_buster ApiClient env c w = default ∅ (params c) !! "_t".
Proof.
  unfold cache_buster, client_onRequest, Api.onRequest. run.
  destruct (item_truthy _); reflexivity.
Qed.

(** C4 (counterexample).  The claim: two GET requests issued at the same
    millisecond carry different cache-busting parameters.  Both carry
    the clock value. *)
Lemma C4_same_millisecond_same_cache_buster :
  ~ (forall (cl : client) (env : Env) (c1 c2 : config) (w1 w2 : World),
       method c1 = "get" -> method c2 = "get" ->
       cache_buster cl env c1 w1 <> cache_buster cl env c2 w2).
Proof.
  intros H.
  apply (H RequestClient (env_at 1700000000000 (Unanswered None))
           info_request info_request empty_world empty_world);
    reflexivity.
Qed.

(** C4 (amended).  [request.js] sets the parameter [_t] of every GET
    request to the clock value read when the request is issued, so two
    GET requests carry the same cache-busting parameter exactly when they
    are issued at the same millisecond.  [api.js] appends no such
    parameter. *)
Theorem C4_cache_buster_is_the_clock
    (env1 env2 : Env) (c1 c2 : config) (w1 w2 : World) :
  method c1 = "get" -> method c2 = "get" ->
  cache_buster RequestClient env1 c1 w1 = Some (VNum (now env1))
  /\ (cache_buster RequestClient env1 c1 w1 = cache_buster RequestClient env2 c2 w2
      <-> now env1 = now env2)
  /\ cache_buster ApiClient env1 c1 w1 = default ∅ (params c1) !! "_t".
Proof.
  intros H1 H2.
  rewrite (Request_cache_buster env1 c1 w1 H1), (Request_cache_buster env2 c2 w2 H2).
  split; [reflexivity|]. split; [|apply Api_cache_buster].
  split; [intros [= ->]; reflexivity | intros ->; reflexivity].
Qed.

(** C4 at two requests one millisecond apart. *)
Lemma C4_cache_buster_is_the_clock_witness :
  method info_request = "get"
  /\ (cache_buster RequestClient (env_ms 5) info_request empty_world = Some (VNum 5)
      /\ (cache_buster RequestClient (env_ms 5) info_request empty_world
          = cache_buster RequestClient (env_ms 6) info_request empty_world
          <-> 5 = 6)
      /\ cache_buster ApiClient (env_ms 5) info_request empty_world = None).
Proof.
  split; [reflexivity|].
  apply (C4_cache_buster_is_the_clock (env_ms 5) (env_ms 6)
           info_request info_request empty_world empty_world);
    reflexivity.
Defined.

(** ** C5, C8, C10: [isValid] *)

Lemma stored_expiration_Some (w : World) (e : Z) :
  stored_expiration w = Some e ->
  exists s, localStorage w !! "tokenExpiration" = Some s
    /\ parseInt s = Some e /\ item_truthy (Some s) = true.
Proof.
  unfold stored_expiration. destruct (localStorage w !! "tokenExpiration") as [s|];
    [|discriminate].
  intros Hp. exists s. repeat split; [assumption|].
  destruct s; [discriminate | reflexivity].
Qed.

Lemma item_truthy_Some (x : option string) :
  item_truthy x = true <-> exists t, x = Some t /\ t <> "".
Proof.
  destruct x as [t|]; cbn.
  - destruct (String.eqb_spec t ""); cbn; split.
    + discriminate.
    + intros (t' & [= <-] & Hne). contradiction.
    + eauto.
    + reflexivity.
  - split; [discriminate | intros (t & Heq & _); discriminate].
Qed.

(** When the stored expiration is looked at, the test
    [expirationTime && now > parseInt(expirationTime)] is a comparison
    with what [stored_expiration] reads. *)
Lemma expired_test (env : Env) (w : World) :
  item_truthy (localStorage w !! "tokenExpiration")
  && gt_parsed (now env) (default "" (localStorage w !! "tokenExpiration"))
  = match stored_expiration w with
    | Some e => e <? now env
    | None => false
    end.
Proof.
  unfold stored_expiration, gt_parsed.
  destruct (localStorage w !! "tokenExpiration") as [s|]; [|reflexivity].
  cbn [default]. unfold id. destruct s as [|a s]; [reflexivity|].
  reflexivity.
Qed.

(** [checkLoginStatus], case by case. *)
Lemma checkLoginStatus_cases (env : Env) (w : World) :
  Api.checkLoginStatus env w =
    if negb (item_truthy (localStorage w !! "userToken")) then (Normal false, w)
    else if match stored_expiration w with
            | Some e => e <? now env
            | None => false
            end
    then (Normal false,
          mkWorld (delete "tokenExpiration" (delete "userInfo"
                     (delete "userToken" (localStorage w)))) (trace w))
    else (Normal true, w).
Proof.
  unfold Api.checkLoginStatus. unfold bind at 1 2, getItem. cbn [fst snd].
  rewrite expired_test.
  destruct (negb (item_truthy (localStorage w !! "userToken"))); [reflexivity|].
  destruct (match stored_expiration w with Some e => e <? now env | None => false end);
    reflexivity.
Qed.

(** C5 (counterexample).  The claim: [isValid()] is true exactly when a
    token exists and no expiration is recorded or the current time is
    strictly less than it.  At the very millisecond of the expiration
    [isValid()] is still true. *)
Lemma C5_valid_at_expiration_instant :
  ~ (forall (env : Env) (w : World),
       isValid env w = Normal true
       <-> is_Some (localStorage w !! "userToken")
           /\ (localStorage w !! "tokenExpiration" = None
               \/ exists e, stored_expiration w = Some e /\ now env < e)).
Proof.
  intros H.
  destruct (H (env_ms 1000) boundary_session) as [Hfwd _].
  destruct (Hfwd eq_refl) as (_ & [Hnone | (e & He & Hlt)]).
  - discriminate.
  - vm_compute in He. injection He as <-. cbn in Hlt. lia.
Qed.

(** C5 (amended).  [isValid()] always returns, and it returns true
    exactly when a non-empty token is stored and the stored expiration,
    if there is one and it reads as a number, is not before the current
    time: the session is still valid at the millisecond of its
    expiration, and an expiration that is absent, empty or not a number
    never expires it. *)
Theorem C5_isValid_iff (env : Env) (w : World) :
  (exists b, isValid env w = Normal b)
  /\ (isValid env w = Normal true
      <-> (exists t, localStorage w !! "userToken" = Some t /\ t <> "")
          /\ (forall e, stored_expiration w = Some e -> now env <= e)).
Proof.
  unfold isValid. rewrite checkLoginStatus_cases.
  rewrite <- item_truthy_Some.
  destruct (item_truthy (localStorage w !! "userToken")); cbn [negb fst].
  - destruct (stored_expiration w) as [e|].
    + destruct (Z.ltb_spec e (now env)); cbn [fst].
      * split; [eauto|]. split; [discriminate|].
        intros (_ & Hle). specialize (Hle e eq_refl). lia.
      * split; [eauto|]. split; [|reflexivity].
        intros _. split; [reflexivity|]. intros e' [= <-]. assumption.
    + split; [eauto|]. split; [|reflexivity].
      intros _. split; [reflexivity | discriminate].
  - split; [eauto|]. split; [discriminate | intros (Habs & _); discriminate].
Qed.

(** C8 (counterexample).  The claim: whenever the stored expiration is
    in the past, [isValid()] returns false and leaves the store empty.
    With no token stored the function returns before it looks at the
    expiration, and the expiration stays. *)
Lemma C8_no_token_nothing_cleared :
  ~ (forall (env : Env) (w : World) (e : Z),
       stored_expiration w = Some e -> e < now env ->
       isValid env w = Normal false /\ session_empty (after_isValid env w)).
Proof.
  intros H.
  destruct (H (env_ms 2000) tokenless_session 1000) as (_ & _ & _ & Habs).
  - reflexivity.
  - reflexivity.
  - vm_compute in Habs. discriminate.
Qed.

(** C8 (amended).  For every store that holds a non-empty token and an
    expiration strictly in the past, [isValid()] returns false and
    afterwards the token, the user info and the expiration are all
    absent. *)
Theorem C8_expired_session_is_cleared (env : Env) (w : World) (t : string) (e : Z) :
  localStorage w !! "userToken" = Some t -> t <> "" ->
  stored_expiration w = Some e -> e < now env ->
  isValid env w = Normal false /\ session_empty (after_isValid env w).
Proof.
  intros Ht Hne He Hlt. unfold isValid, after_isValid.
  rewrite checkLoginStatus_cases.
  replace (item_truthy (localStorage w !! "userToken")) with true
    by (symmetry; apply item_truthy_Some; eauto).
  rewrite He. cbn [negb].
  replace (e <? now env) with true by (symmetry; apply Z.ltb_lt; assumption).
  cbn [fst snd]. split; [reflexivity|]. unfold session_empty. cbn [localStorage].
  repeat split.
  - rewrite !lookup_delete_ne by discriminate. apply lookup_delete_eq.
  - rewrite lookup_delete_ne by discriminate. apply lookup_delete_eq.
  - apply lookup_delete_eq.
Qed.

(** C8 at a session that expired a second ago. *)
Lemma C8_expired_session_is_cleared_witness :
  localStorage stale_session !! "userToken" = Some "t1" /\ "t1" <> ""
  /\ stored_expiration stale_session = Some 1000 /\ 1000 < now (env_ms 2000)
  /\ (isValid (env_ms 2000) stale_session = Normal false
      /\ session_empty (after_isValid (env_ms 2000) stale_session)).
Proof.
  split; [reflexivity|]. split; [discriminate|]. split; [reflexivity|].
  split; [reflexivity|].
  apply (C8_expired_session_is_cleared (env_ms 2000) stale_session "t1" 1000).
  - reflexivity.
  - discriminate.
  - reflexivity.
  - reflexivity.
Defined.

(** C10 (counterexample).  The claim: whenever a token exists and the
    stored expiration does not read as a number, [isValid()] returns
    true.  A stored token that is the empty string counts as no token. *)
Lemma C10_empty_token_is_invalid :
  ~ (forall (env : Env) (w : World) (t s : string),
       localStorage w !! "userToken" = Some t ->
       localStorage w !! "tokenExpiration" = Some s ->
       parseInt s = None ->
       isValid env w = Normal true /\ after_isValid env w = w).
Proof.
  intros H.
  destruct (H (env_ms 2000) empty_token_session "" "abc") as (Habs & _);
    try reflexivity.
  discriminate.
Qed.

(** C10 (amended).  For every store that holds a non-empty token and an
    expiration string that [parseInt] reads as [NaN], [isValid()]
    returns true and leaves the store as it was: a corrupted expiration
    makes the session count as never expiring. *)
Theorem C10_corrupt_expiration_never_expires
    (env : Env) (w : World) (t s : string) :
  localStorage w !! "userToken" = Some t -> t <> "" ->
  localStorage w !! "tokenExpiration" = Some s ->
  parseInt s = None ->
  isValid env w = Normal true /\ after_isValid env w = w.
Proof.
  intros Ht Hne Hs Hp. unfold isValid, after_isValid.
  rewrite checkLoginStatus_cases.
  replace (item_truthy (localStorage w !! "userToken")) with true
    by (symmetry; apply item_truthy_Some; eauto).
  unfold stored_expiration. rewrite Hs, Hp. split; reflexivity.
Qed.

(** C10 at the expiration string "abc". *)
Lemma C10_corrupt_expiration_never_expires_witness :
  localStorage corrupt_session !! "userToken" = Some "t1" /\ "t1" <> ""
  /\ localStorage corrupt_session !! "tokenExpiration" = Some "abc"
  /\ parseInt "abc" = None
  /\ (isValid (env_ms 2000) corrupt_session = Normal true
      /\ after_isValid (env_ms 2000) corrupt_session = corrupt_session).
Proof.
  split; [reflexivity|]. split; [discriminate|]. split; [reflexivity|].
  split; [reflexivity|].
  apply (C10_corrupt_expiration_never_expires (env_ms 2000) corrupt_session "t1" "abc").
  - reflexivity.
  - discriminate.
  - reflexivity.
  - reflexivity.
Defined.

(** ** C6: the expiration a login records *)

Example token_lifetime_ms : Api.token_lifetime = 86400000.
Proof. reflexivity. Qed.

(** What a resolved login with the payload stores, in terms of the
    clock value [loginUser] reads: it reads the clock once, after the
    awaited call has returned. *)
Lemma loginUser_records_expiration
    (env : Env) (loginData : Api.LoginData) (w : World) (status : Z) (body : value) :
  (forall c, server env c = Answered status body) ->
  validateStatus status = true ->
  get_prop body "data" = Normal login_payload ->
  let w' := snd (Api.loginUser env loginData w) in
  localStorage w' !! "tokenExpiration" = Some (number_to_string (now env + 86400000))
  /\ stored_expiration w' = Some (now env + 86400000)
  /\ exists result,
       fst (Api.loginUser env loginData w) = Normal result
       /\ get_prop result "success" = Normal (VBool true)
       /\ get_prop result "data" = Normal login_payload.
Proof.
  intros Hserver Hok Hdata w'.
  assert (exists m, get_prop body "message" = Normal m) as (m & Hm).
  { destruct body; try discriminate; cbn; eauto. }
  assert (exists c',
            Api.loginUser env loginData w
            = (Normal (VObj [("success", VBool true); ("data", login_payload);
                             ("message", or_else m (VStr "登录成功"))]),
               mkWorld (<["tokenExpiration" := number_to_string (now env + 86400000)]>
                          (localStorage w))
                       (trace w ++ [NetCall c']))) as (sent & Hrun).
  { unfold Api.loginUser, Api.post, try_catch. unfold bind at 1.
    match goal with |- context [Api.send env ?c w] =>
      destruct (Api_send_settles env c w) as (c' & _ & ->) end.
    exists c'. rewrite Hserver. cbn [settle]. rewrite Hok.
    unfold Api.onFulfilled, Api.success_result. run. cbn [resp_data].
    rewrite Hdata, Hm. reflexivity. }
  subst w'. rewrite Hrun. cbn [fst snd localStorage].
  split; [apply lookup_insert_eq|]. split.
  - unfold stored_expiration. cbn [localStorage]. rewrite lookup_insert_eq.
    apply parseInt_number_to_string.
  - eexists. split; [reflexivity|]. split; reflexivity.
Qed.

(** C6 (counterexample).  The claim: a login call made at time [T]
    stores the expiration [T + 86400000].  [loginUser] reads the clock
    when it handles the answer: with a call made at 1000 and answered
    300 milliseconds later it stores 86401300. *)
Lemma C6_round_trip_delays_expiration :
  ~ (forall (T latency : Z) (env : Env) (loginData : Api.LoginData) (w : World)
            (status : Z) (body : value),
       0 <= latency ->
       now env = T + latency ->
       (forall c, server env c = Answered status body) ->
       validateStatus status = true ->
       get_prop body "data" = Normal login_payload ->
       stored_expiration (snd (Api.loginUser env loginData w))
       = Some (T + 86400000)).
Proof.
  intros H.
  specialize (H 1000 300 (login_env 1300) some_login empty_world 200
                (VObj [("code", VNum 200); ("data", login_payload);
                       ("message", VStr "ok")])).
  assert (stored_expiration
            (snd (Api.loginUser (login_env 1300) some_login empty_world))
          = Some 86401300) as Hrun by reflexivity.
  rewrite H in Hrun; try reflexivity; [discriminate | lia].
Qed.

(** C6 (amended).  For a login call made at time [T] whose answer, with
    the payload [{token: "t1", userInfo: {id: 1}}], is handled
    [latency] milliseconds later, [loginUser] stores under
    [tokenExpiration] the decimal digits of [T + latency + 86400000]:
    a day after the clock value it reads when it handles the answer.
    That is [T + 86400000] exactly when the round trip takes no time. *)
Theorem C6_expiration_counts_from_the_answer
    (T latency : Z) (env : Env) (loginData : Api.LoginData) (w : World)
    (status : Z) (body : value) :
  now env = T + latency ->
  (forall c, server env c = Answered status body) ->
  validateStatus status = true ->
  get_prop body "data" = Normal login_payload ->
  let w' := snd (Api.loginUser env loginData w) in
  localStorage w' !! "tokenExpiration"
  = Some (number_to_string (T + latency + 86400000))
  /\ stored_expiration w' = Some (T + latency + 86400000)
  /\ (stored_expiration w' = Some (T + 86400000) <-> latency = 0).
Proof.
  intros Hnow Hserver Hok Hdata.
  destruct (loginUser_records_expiration env loginData w status body
              Hserver Hok Hdata) as (Hstore & Hexp & _).
  cbv zeta. rewrite Hstore, Hexp, Hnow.
  split; [reflexivity|]. split; [reflexivity|].
  split; [intros [= Heq]; lia | intros ->; f_equal; lia].
Qed.

(** C6 at a call made at 1000 and answered 300 milliseconds later. *)
Lemma C6_expiration_counts_from_the_answer_witness :
  now (login_env 1300) = 1000 + 300
  /\ (forall c, server (login_env 1300) c
                = Answered 200 (VObj [("code", VNum 200); ("data", login_payload);
                                      ("message", VStr "ok")]))
  /\ validateStatus 200 = true
  /\ (let w' := snd (Api.loginUser (login_env 1300) some_login empty_world) in
      localStorage w' !! "tokenExpiration"
      = Some (number_to_string (1000 + 300 + 86400000))
      /\ stored_expiration w' = Some (1000 + 300 + 86400000)
      /\ (stored_expiration w' = Some (1000 + 86400000) <-> 300 = 0)).
Proof.
  split; [reflexivity|]. split; [reflexivity|]. split; [reflexivity|].
  apply (C6_expiration_counts_from_the_answer 1000 300 (login_env 1300) some_login
           empty_world 200
           (VObj [("code", VNum 200); ("data", login_payload);
                  ("message", VStr "ok")])); reflexivity.
Defined.

(** ** C7: fetch-profile with a stale expiration *)

(** C7.  When the stored expiration is strictly before the current time,
    [getUserInfo] returns the failure
    [{success: false, message: "Token已过期", code: undefined}] and does
    nothing else: the world, and with it the list of network calls, is
    as before. *)
Theorem C7_stale_profile_fails_locally (env : Env) (w : World) (e : Z) :
  stored_expiration w = Some e -> e < now env ->
  Api.getUserInfo env w
  = (Normal (VObj [("success", VBool false); ("message", VStr "Token已过期");
                   ("code", VUndefined)]), w)
  /\ network_calls (snd (Api.getUserInfo env w)) = network_calls w.
Proof.
  intros He Hlt.
  assert (Api.getUserInfo env w
          = (Normal (VObj [("success", VBool false); ("message", VStr "Token已过期");
                           ("code", VUndefined)]), w)) as Hrun.
  { unfold Api.getUserInfo, try_catch. unfold bind at 1, getItem. cbn [fst snd].
    unfold bind at 1. rewrite expired_test, He.
    replace (e <? now env) with true by (symmetry; apply Z.ltb_lt; assumption).
    reflexivity. }
  rewrite Hrun. split; reflexivity.
Qed.

(** C7 at a session that expired a second ago. *)
Lemma C7_stale_profile_fails_locally_witness :
  stored_expiration stale_session = Some 1000 /\ 1000 < now (login_env 2000)
  /\ (Api.getUserInfo (login_env 2000) stale_session
      = (Normal (VObj [("success", VBool false); ("message", VStr "Token已过期");
                       ("code", VUndefined)]), stale_session)
      /\ network_calls (snd (Api.getUserInfo (login_env 2000) stale_session))
         = network_calls stale_session).
Proof.
  split; [reflexivity|]. split; [reflexivity|].
  apply (C7_stale_profile_fails_locally (login_env 2000) stale_session 1000);
    reflexivity.
Defined.

(** With no stale expiration the call does go out. *)
Example fresh_profile_calls_network :
  length (network_calls (snd (Api.getUserInfo (login_env 500) stale_session))) = 1%nat.
Proof. reflexivity. Qed.

(** ** C9: a successful body with a falsy payload *)

Lemma body_ok_success (body : value) :
  reports_success body -> Request.body_ok body = Normal true.
Proof.
  unfold Request.body_ok.
  intros [Hc | (c & s & Hc & Hs & Ht)]; rewrite Hc; [reflexivity|].
  rewrite Hs, Ht.
  destruct c as [| |b|n|x|l|l]; try reflexivity.
  destruct n as [|p|p]; try reflexivity.
  repeat (destruct p as [p|p|]; try reflexivity).
Qed.

(** C9.  When a 2xx body carries the success indicator and its [data]
    field is falsy ([null], [0], the empty string, [false], or absent),
    the fulfilled handler of [request.js] resolves with the whole body. *)
Theorem C9_falsy_payload_resolves_with_body (r : response) (w : World) (d : value) :
  validateStatus (resp_status r) = true ->
  reports_success (resp_data r) ->
  get_prop (resp_data r) "data" = Normal d ->
  truthy d = false ->
  Request.onFulfilled r w = (Normal (resp_data r), w).
Proof.
  intros _ Hok Hd Hfalsy. unfold Request.onFulfilled. run.
  rewrite (body_ok_success _ Hok), Hd. unfold or_else. rewrite Hfalsy.
  reflexivity.
Qed.

(** C9 at the payload 0. *)
Lemma C9_falsy_payload_resolves_with_body_witness :
  validateStatus (resp_status zero_answer) = true
  /\ reports_success (resp_data zero_answer)
  /\ get_prop (resp_data zero_answer) "data" = Normal (VNum 0)
  /\ truthy (VNum 0) = false
  /\ Request.onFulfilled zero_answer empty_world
     = (Normal (resp_data zero_answer), empty_world).
Proof.
  split; [reflexivity|]. split; [left; reflexivity|]. split; [reflexivity|].
  split; [reflexivity|].
  apply (C9_falsy_payload_resolves_with_body zero_answer empty_world (VNum 0)).
  - reflexivity.
  - left; reflexivity.
  - reflexivity.
  - reflexivity.
Defined.

(** * The rest of the two clients and their callers *)

(** ** What the rejected handlers do to the page *)

Lemma network_calls_app (w : World) (l : list effect) :
  (forall c, ~ In (NetCall c) l) ->
  network_calls (mkWorld (localStorage w) (trace w ++ l)) = network_calls w.
Proof.
  intros Hno. unfold network_calls. cbn [trace]. rewrite omap_app.
  replace (omap (fun e => match e with NetCall c => Some c | _ => None end) l)
    with (@nil config); [apply app_nil_r|].
  induction l as [|e l IH]; [reflexivity|].
  cbn. destruct e; try (apply IH; intros c Hc; apply (Hno c); right; exact Hc).
  exfalso. apply (Hno c). left. reflexivity.
Qed.

(** The rejected handler of [api.js], in full: the rejection is the
    object literal with a truthy message and code; the store changes on
    a 401 only; the page reloads on a 401 and on a network failure the
    user wants retried, and never otherwise; no request is sent. *)
Lemma Api_onRejected_spec (env : Env) (error : axios_error) (w : World) :
  exists m c l,
    fst (Api.onRejected env error w) = Abrupt (obj_error m c)
    /\ localStorage (snd (Api.onRejected env error w))
       = (if is_unauthorized error
          then delete "userInfo" (delete "userToken" (localStorage w))
          else localStorage w)
    /\ trace (snd (Api.onRejected env error w)) = (trace w ++ l)%list
    /\ truthy m = true /\ truthy c = true
    /\ (forall cfg, ~ In (NetCall cfg) l)
    /\ (In Reload l <->
        is_unauthorized error = true
        \/ (exists code, error = WithoutResponse code) /\ confirm_answer env = true).
Proof.
  destruct error as [status body | code]; unfold Api.onRejected, is_unauthorized.
  - destruct (status =? 401) eqn:H401;
      [|destruct (status =? 403); [|destruct (status =? 404); [|destruct (status =? 500)]]];
      run; rewrite <- ?app_assoc; cbn [app].
    + do 2 eexists. exists [Alert "登录已过期，请重新登录"; Reload].
      repeat split; try reflexivity.
      * intros cfg [H|[H|[]]]; discriminate.
      * intros _. left. reflexivity.
      * intros _. right. left. reflexivity.
    + do 2 eexists. exists [Alert "没有权限访问该资源"].
      repeat split; try reflexivity.
      * intros cfg [H|[]]; discriminate.
      * intros [H|[]]; discriminate.
      * intros [H | ((code & Hc) & _)]; discriminate.
    + do 2 eexists. exists [].
      repeat split; try reflexivity.
      * symmetry; apply app_nil_r.
      * intros cfg [].
      * intros [].
      * intros [H | ((code & Hc) & _)]; discriminate.
    + do 2 eexists. exists [Alert "服务器内部错误，请稍后重试"].
      repeat split; try reflexivity.
      * intros cfg [H|[]]; discriminate.
      * intros [H|[]]; discriminate.
      * intros [H | ((code & Hc) & _)]; discriminate.
    + do 2 eexists. exists [].
      repeat split; try reflexivity.
      * symmetry; apply app_nil_r.
      * unfold or_else. destruct (truthy (get_prop_opt body "message")) eqn:Hm;
          [exact Hm | reflexivity].
      * unfold or_else. destruct (truthy (get_prop_opt body "code")) eqn:Hc;
          [exact Hc | reflexivity].
      * intros cfg [].
      * intros [].
      * intros [H | ((code & Hc) & _)]; discriminate.
  - destruct (confirm_answer env); run; rewrite <- ?app_assoc; cbn [app].
    + do 2 eexists. exists [Confirm "网络连接失败，是否重试？"; Reload].
      repeat split; try reflexivity.
      * intros cfg [H|[H|[]]]; discriminate.
      * intros _. right. split; [eauto | reflexivity].
      * intros _. right. left. reflexivity.
    + do 2 eexists. exists [Confirm "网络连接失败，是否重试？"].
      repeat split; try reflexivity.
      * intros cfg [H|[]]; discriminate.
      * intros [H|[]]; discriminate.
      * intros [H | (_ & H)]; discriminate.
Qed.

(** The rejected handler of [request.js], in full. *)
Lemma Request_onRejected_spec (error : axios_error) (w : World) :
  exists name message,
    fst (Request.onRejected error w) = Abrupt (ErrorObject name message)
    /\ localStorage (snd (Request.onRejected error w))
       = (if is_unauthorized error then delete "token" (localStorage w)
          else localStorage w)
    /\ trace (snd (Request.onRejected error w))
       = (trace w ++ if is_unauthorized error then [Navigate "/login"] else [])%list.
Proof.
  destruct error as [status body | code]; unfold Request.onRejected, is_unauthorized.
  - destruct (status =? 401);
      [|destruct (status =? 403); [|destruct (status =? 404); [|destruct (status =? 500)]]];
      run; rewrite ?new_Error_string;
      try (do 2 eexists; repeat split; try reflexivity; symmetry; apply app_nil_r).
    destruct (new_Error_instance
                (or_else (get_prop_opt body "message")
                   (VStr ("请求失败 (" +:+ number_to_string status +:+ ")"))))
      as (name & message & -> & _).
    do 2 eexists; repeat split; try reflexivity; symmetry; apply app_nil_r.
  - case_bool_decide; run; rewrite new_Error_string;
      do 2 eexists; repeat split; try reflexivity; symmetry; apply app_nil_r.
Qed.

(** Neither rejected handler sends a request. *)
Lemma Api_onRejected_no_call (env : Env) (error : axios_error) (w : World) :
  network_calls (snd (Api.onRejected env error w)) = network_calls w.
Proof.
  destruct (Api_onRejected_spec env error w)
    as (m & c & l & _ & _ & Htr & _ & _ & Hnet & _).
  rewrite <- (network_calls_app w l Hnet). unfold network_calls. cbn [trace].
  rewrite Htr. reflexivity.
Qed.

Lemma Request_onRejected_no_call (error : axios_error) (w : World) :
  network_calls (snd (Request.onRejected error w)) = network_calls w.
Proof.
  destruct (Request_onRejected_spec error w) as (name & m & _ & _ & Htr).
  unfold network_calls. rewrite Htr, omap_app.
  destruct (is_unauthorized error); cbn; apply app_nil_r.
Qed.

(** ** X1, X2: what a failure does besides rejecting *)

(** X1.  Whatever failure reaches the rejected handler of [api.js], the
    store is changed only by a 401 (which removes the token and the user
    info), no request is sent again, and the page is reloaded exactly on
    a 401 or on a network failure the user asked to retry. *)
Theorem X1_api_failure_side_effects (env : Env) (error : axios_error) (w : World) :
  let w' := snd (Api.onRejected env error w) in
  localStorage w'
  = (if is_unauthorized error
     then delete "userInfo" (delete "userToken" (localStorage w))
     else localStorage w)
  /\ network_calls w' = network_calls w
  /\ exists l, trace w' = (trace w ++ l)%list
       /\ (In Reload l <->
           is_unauthorized error = true
           \/ (exists code, error = WithoutResponse code)
              /\ confirm_answer env = true).
Proof.
  cbv zeta.
  destruct (Api_onRejected_spec env error w)
    as (m & c & l & _ & Hst & Htr & _ & _ & Hnet & Hreload).
  split; [exact Hst|]. split; [apply Api_onRejected_no_call|].
  exists l. split; [exact Htr | exact Hreload].
Qed.

(** X2.  Whatever failure reaches the rejected handler of [request.js],
    the only storage key it can remove is [token], and it does so, and
    sends the page to [/login], exactly on a 401. *)
Theorem X2_request_failure_side_effects (error : axios_error) (w : World) :
  let w' := snd (Request.onRejected error w) in
  localStorage w'
  = (if is_unauthorized error then delete "token" (localStorage w)
     else localStorage w)
  /\ trace w'
     = (trace w ++ if is_unauthorized error then [Navigate "/login"] else [])%list
  /\ network_calls w' = network_calls w.
Proof.
  cbv zeta.
  destruct (Request_onRejected_spec error w) as (name & m & _ & Hst & Htr).
  split; [exact Hst|]. split; [exact Htr|]. apply Request_onRejected_no_call.
Qed.

(** ** X3: one request per call *)

Lemma network_calls_emit (w : World) (c : config) :
  network_calls (mkWorld (localStorage w) (trace w ++ [NetCall c]))
  = (network_calls w ++ [c])%list.
Proof. unfold network_calls. cbn [trace]. rewrite omap_app. reflexivity. Qed.

(** X3.  A call through either instance puts exactly one request on the
    network, the one its request interceptor produced, however the call
    settles: nothing is retried. *)
Theorem X3_one_request_per_call (cl : client) (env : Env) (c : config) (w : World) :
  exists c',
    fst (client_onRequest cl env c w) = Normal c'
    /\ network_calls (snd (client_send cl env c w)) = (network_calls w ++ [c'])%list.
Proof.
  destruct cl; cbn [client_onRequest client_send].
  - destruct (Api_send_settles env c w) as (c' & Hreq & ->).
    exists c'. rewrite Hreq. split; [reflexivity|].
    rewrite <- network_calls_emit.
    set (w1 := mkWorld (localStorage w) (trace w ++ [NetCall c'])).
    destruct (settle c' (server env c')) as [r | error].
    + reflexivity.
    + apply Api_onRejected_no_call.
  - destruct (Request_send_settles env c w) as (c' & Hreq & ->).
    exists c'. rewrite Hreq. split; [reflexivity|].
    rewrite <- network_calls_emit.
    set (w1 := mkWorld (localStorage w) (trace w ++ [NetCall c'])).
    destruct (settle c' (server env c')) as [r | error].
    + unfold Request.onFulfilled, bind, lift, ret, throw.
      destruct (Request.body_ok (resp_data r)) as [[|]|e]; cbn [snd];
        try reflexivity.
      * destruct (get_prop (resp_data r) "data"); reflexivity.
      * destruct (get_prop (resp_data r) "message"); reflexivity.
    + apply Request_onRejected_no_call.
Qed.

(** ** X4, X5: the request interceptors *)

(** X4.  The request interceptor of [api.js] never fails and changes
    nothing but headers: it tags the request with the platform and the
    client version, puts the bearer credential exactly when a non-empty
    token is stored (and otherwise leaves the caller's [Authorization]
    alone), and keeps every other header. *)
Theorem X4_api_request_headers (c : config) (w : World) :
  exists c',
    Api.onRequest c w = (Normal c', w)
    /\ (method c', url c', params c', data c') = (method c, url c, params c, data c)
    /\ headers c' !! "X-Platform" = Some "web"
    /\ headers c' !! "X-Client-Version" = Some "1.0.0"
    /\ headers c' !! "Authorization"
       = match localStorage w !! "userToken" with
         | Some t => if String.eqb t "" then headers c !! "Authorization"
                     else Some ("Bearer " +:+ t)
         | None => headers c !! "Authorization"
         end
    /\ (forall k, k <> "X-Platform" -> k <> "X-Client-Version" ->
                  k <> "Authorization" -> headers c' !! k = headers c !! k).
Proof.
  eexists. split.
  { unfold Api.onRequest, bind, getItem, ret. reflexivity. }
  unfold with_header; cbn [method url params data headers].
  split; [destruct (item_truthy _); reflexivity|].
  split; [rewrite lookup_insert_ne by discriminate; apply lookup_insert_eq|].
  split; [apply lookup_insert_eq|].
  split.
  - rewrite !lookup_insert_ne by discriminate.
    destruct (localStorage w !! "userToken") as [t|]; cbn; [|reflexivity].
    destruct (String.eqb t ""); cbn; [reflexivity | apply lookup_insert_eq].
  - intros k H1 H2 H3. rewrite !lookup_insert_ne by congruence.
    destruct (item_truthy _); cbn; [|reflexivity].
    apply lookup_insert_ne. congruence.
Qed.

(** X5.  The request interceptor of [request.js] never fails, takes the
    bearer credential from the key [token], leaves the query parameters
    of every request that is not a GET untouched, and on a GET keeps all
    the caller's parameters other than [_t]. *)
Theorem X5_request_interceptor (env : Env) (c : config) (w : World) :
  exists c',
    Request.onRequest env c w = (Normal c', w)
    /\ (method c', url c', data c') = (method c, url c, data c)
    /\ headers c'
       = match localStorage w !! "token" with
         | Some t => if String.eqb t "" then headers c
                     else <["Authorization" := "Bearer " +:+ t]> (headers c)
         | None => headers c
         end
    /\ (method c <> "get" -> params c' = params c)
    /\ (forall k, k <> "_t" ->
          default ∅ (params c') !! k = default ∅ (params c) !! k).
Proof.
  eexists. split.
  { unfold Request.onRequest, bind, getItem, ret. reflexivity. }
  assert (forall c0 : config,
    method (if item_truthy (localStorage w !! "token")
            then with_header "Authorization"
                   ("Bearer " +:+ default "" (localStorage w !! "token")) c0
            else c0) = method c0) as Hm
    by (intros c0; destruct (item_truthy _); reflexivity).
  rewrite Hm.
  destruct (String.eqb_spec (method c) "get") as [Hget | Hget];
    unfold with_params, with_header; cbn [method url params data headers].
  - split; [destruct (item_truthy _); reflexivity|].
    split.
    { destruct (localStorage w !! "token") as [t|]; cbn; [|reflexivity].
      destruct (String.eqb t ""); reflexivity. }
    split; [contradiction|].
    intros k Hk. cbn [default]. unfold id.
    rewrite lookup_insert_ne by congruence.
    destruct (item_truthy _); reflexivity.
  - split; [destruct (item_truthy _); reflexivity|].
    split.
    { destruct (localStorage w !! "token") as [t|]; cbn; [|reflexivity].
      destruct (String.eqb t ""); reflexivity. }
    split; [intros _; destruct (item_truthy _); reflexivity|].
    intros k Hk. destruct (item_truthy _); reflexivity.
Qed.

(** ** X6..X9: the operations of [api.js] *)

Lemma failure_result_obj (fb : string) (m c : value) (w : World) :
  truthy m = true ->
  Api.failure_result fb (obj_error m c) w = (Normal (failure_object m c), w).
Proof.
  intros Hm. unfold Api.failure_result, obj_error. run. cbn.
  unfold or_else. rewrite Hm. reflexivity.
Qed.

Lemma failure_result_type_error (fb what k : string) (w : World) :
  exists m, truthy m = true
    /\ Api.failure_result fb (type_error what k) w
       = (Normal (failure_object m VUndefined), w).
Proof.
  unfold Api.failure_result, type_error. run. cbn. eexists. split; [|reflexivity].
  reflexivity.
Qed.

(** A body whose properties can be read has both [data] and [message]. *)
Lemma get_prop_message (body : value) (k : string) (d : value) :
  get_prop body k = Normal d -> exists m, get_prop body "message" = Normal m.
Proof. destruct body; try discriminate; cbn; eauto. Qed.

Lemma get_prop_abrupt (body : value) (k : string) (e : thrown) :
  get_prop body k = Abrupt e -> exists what, e = type_error what k.
Proof. destruct body; try discriminate; cbn; intros [= <-]; eauto. Qed.

Lemma or_else_truthy (m : value) (fb : string) :
  fb <> "" -> truthy (or_else m (VStr fb)) = true.
Proof.
  intros Hfb. unfold or_else. destruct (truthy m) eqn:Hm; [exact Hm|].
  cbn. destruct (String.eqb_spec fb ""); [contradiction | reflexivity].
Qed.

(** How a simple operation ends, by how its call settles. *)
Lemma simple_call_cases (env : Env) (c : config) (fb fb' : string) (w : World) :
  exists c', Api.onRequest c w = (Normal c', w) /\
    let w1 := mkWorld (localStorage w) (trace w ++ [NetCall c']) in
    match settle c' (server env c') with
    | inl r =>
        match get_prop (resp_data r) "data" with
        | Normal d =>
            exists m, get_prop (resp_data r) "message" = Normal m
              /\ simple_call env c fb fb' w
                 = (Normal (success_object d (or_else m (VStr fb))), w1)
        | Abrupt _ =>
            exists m, truthy m = true
              /\ simple_call env c fb fb' w
                 = (Normal (failure_object m VUndefined), w1)
        end
    | inr error =>
        exists m cd, truthy m = true /\ truthy cd = true
          /\ fst (Api.onRejected env error w1) = Abrupt (obj_error m cd)
          /\ simple_call env c fb fb' w
             = (Normal (failure_object m cd), snd (Api.onRejected env error w1))
    end.
Proof.
  destruct (Api_send_settles env c w) as (c' & Hreq & Hsend).
  exists c'. split; [exact Hreq|]. cbv zeta.
  destruct (settle c' (server env c')) as [r | error].
  - destruct (get_prop (resp_data r) "data") as [d | e] eqn:Hd.
    + destruct (get_prop_message _ _ _ Hd) as (m & Hm). exists m.
      split; [exact Hm|].
      unfold simple_call, try_catch. unfold bind at 1. rewrite Hsend.
      unfold Api.onFulfilled, ret, Api.success_result, bind, lift.
      rewrite Hd, Hm. reflexivity.
    + destruct (get_prop_abrupt _ _ _ Hd) as (what & ->).
      destruct (failure_result_type_error fb' what "data"
                  (mkWorld (localStorage w) (trace w ++ [NetCall c'])))
        as (m & Hm & Hrun).
      exists m. split; [exact Hm|].
      unfold simple_call, try_catch. unfold bind at 1. rewrite Hsend.
      unfold Api.onFulfilled, ret, Api.success_result. unfold bind at 1, lift.
      rewrite Hd. exact Hrun.
  - destruct (Api_onRejected_spec env error
                (mkWorld (localStorage w) (trace w ++ [NetCall c'])))
      as (m & cd & l & Hfst & _ & _ & Hm & Hcd & _).
    exists m, cd. split; [exact Hm|]. split; [exact Hcd|]. split; [exact Hfst|].
    unfold simple_call, try_catch. unfold bind at 1. rewrite Hsend.
    destruct (Api.onRejected env error _) as [res w2]. cbn [fst snd] in *.
    subst res. apply failure_result_obj. exact Hm.
Qed.

Lemma run_post_simple (env : Env) (op : post_operation) :
  (forall loginData, op <> OpLogin loginData) ->
  exists fb', run_post env op = simple_call env (post_request env op) (success_text op) fb'.
Proof.
  destruct op as [loginData | registerData | data | data]; intros Hop.
  - destruct (Hop loginData eq_refl).
  - eexists; reflexivity.
  - eexists; reflexivity.
  - eexists; reflexivity.
Qed.

(** How a posting operation ends, by how its call settles. *)
Lemma run_post_cases (env : Env) (op : post_operation) (w : World) :
  exists c', Api.onRequest (post_request env op) w = (Normal c', w) /\
    let w1 := mkWorld (localStorage w) (trace w ++ [NetCall c']) in
    match settle c' (server env c') with
    | inl r =>
        match get_prop (resp_data r) "data" with
        | Normal d =>
            exists m, get_prop (resp_data r) "message" = Normal m
              /\ run_post env op w
                 = (Normal (success_object d (or_else m (VStr (success_text op)))),
                    mkWorld (store_after_success env op d (localStorage w))
                            (trace w ++ [NetCall c']))
        | Abrupt _ =>
            exists m, truthy m = true
              /\ run_post env op w = (Normal (failure_object m VUndefined), w1)
        end
    | inr error =>
        exists m cd, truthy m = true /\ truthy cd = true
          /\ fst (Api.onRejected env error w1) = Abrupt (obj_error m cd)
          /\ run_post env op w
             = (Normal (failure_object m cd), snd (Api.onRejected env error w1))
    end.
Proof.
  destruct op as [loginData | registerData | data | data].
  2-4: match goal with |- context [run_post _ ?op _] =>
         destruct (run_post_simple env op) as (fb' & Heq); [discriminate|];
         destruct (simple_call_cases env (post_request env op) (success_text op) fb' w)
           as (c' & Hreq & Hcases);
         exists c'; (split; [exact Hreq|]); cbv zeta in *; rewrite Heq;
         destruct (settle c' (server env c')) as [r | error];
         [ destruct (get_prop (resp_data r) "data"); exact Hcases
         | destruct Hcases as (m & cd & Hm & Hcd & Hfst & Hrun); eauto 7 ]
       end.
  destruct (Api_send_settles env (post_request env (OpLogin loginData)) w)
    as (c' & Hreq & Hsend).
  exists c'. split; [exact Hreq|]. cbv zeta.
  cbn [run_post]. unfold Api.loginUser, Api.post, try_catch.
  change (mkConfig "post" "/user/login" None _ Api.default_headers)
    with (post_request env (OpLogin loginData)).
  destruct (settle c' (server env c')) as [r | error].
  - destruct (get_prop (resp_data r) "data") as [d | e] eqn:Hd.
    + destruct (get_prop_message _ _ _ Hd) as (m & Hm). exists m.
      split; [exact Hm|].
      unfold bind at 1. rewrite Hsend.
      unfold Api.onFulfilled, ret, Api.success_result, bind, lift, setItem.
      rewrite Hd. cbn [store_after_success].
      destruct (truthy (get_prop_opt d "token")); cbv beta iota; rewrite Hm; reflexivity.
    + destruct (get_prop_abrupt _ _ _ Hd) as (what & ->).
      destruct (failure_result_type_error "登录失败，请重试" what "data"
                  (mkWorld (localStorage w) (trace w ++ [NetCall c'])))
        as (m & Hm & Hrun).
      exists m. split; [exact Hm|].
      unfold bind at 1. rewrite Hsend.
      unfold Api.onFulfilled, ret. unfold bind at 1, lift.
      rewrite Hd. exact Hrun.
  - destruct (Api_onRejected_spec env error
                (mkWorld (localStorage w) (trace w ++ [NetCall c'])))
      as (m & cd & l & Hfst & _ & _ & Hm & Hcd & _).
    exists m, cd. split; [exact Hm|]. split; [exact Hcd|]. split; [exact Hfst|].
    unfold bind at 1. rewrite Hsend.
    destruct (Api.onRejected env error _) as [res w2]. cbn [fst snd] in *.
    subst res. apply failure_result_obj. exact Hm.
Qed.

Lemma success_text_nonempty (op : post_operation) : success_text op <> "".
Proof. destruct op; discriminate. Qed.

(** X6.  No posting operation ever rejects: however the call settles and
    whatever the body is, it resolves with [{success: true, data, message}]
    or with [{success: false, message, code}], and the message is never
    empty. *)
Theorem X6_operations_never_reject (env : Env) (op : post_operation) (w : World) :
  exists v,
    fst (run_post env op w) = Normal v
    /\ ((exists d m, v = success_object d m /\ truthy m = true)
        \/ (exists m cd, v = failure_object m cd /\ truthy m = true)).
Proof.
  destruct (run_post_cases env op w) as (c' & _ & Hcases). cbv zeta in Hcases.
  destruct (settle c' (server env c')) as [r | error].
  - destruct (get_prop (resp_data r) "data") as [d | e].
    + destruct Hcases as (m & _ & ->). eexists. split; [reflexivity|].
      left. do 2 eexists. split; [reflexivity|].
      apply or_else_truthy, success_text_nonempty.
    + destruct Hcases as (m & Hm & ->). eexists. split; [reflexivity|].
      right. eauto.
  - destruct Hcases as (m & cd & Hm & _ & _ & ->). eexists. split; [reflexivity|].
    right. eauto.
Qed.

(** X7.  When the transport fails (no 2xx answer), a posting operation
    reports [{success: false, message, code}] with the very message and
    code of the object the rejected handler rejected with, both truthy:
    the fallback text of the operation is not used. *)
Theorem X7_transport_failure_is_reported
    (env : Env) (op : post_operation) (w : World) :
  (forall c', is_failure (server env c')) ->
  exists c' error m cd,
    Api.onRequest (post_request env op) w = (Normal c', w)
    /\ settle c' (server env c') = inr error
    /\ fst (Api.onRejected env error
              (mkWorld (localStorage w) (trace w ++ [NetCall c'])))
       = Abrupt (obj_error m cd)
    /\ fst (run_post env op w) = Normal (failure_object m cd)
    /\ truthy m = true /\ truthy cd = true.
Proof.
  intros Hfail.
  destruct (run_post_cases env op w) as (c' & Hreq & Hcases). cbv zeta in Hcases.
  destruct (settle_failure c' _ (Hfail c')) as (error & Hs). rewrite Hs in Hcases.
  destruct Hcases as (m & cd & Hm & Hcd & Hfst & Hrun).
  exists c', error, m, cd. rewrite Hrun. auto 7.
Qed.

(** X7 at a 404. *)
Lemma X7_transport_failure_is_reported_witness :
  (forall c', is_failure (server not_found_env c'))
  /\ exists c' error m cd,
       Api.onRequest (post_request not_found_env (OpRegister [])) empty_world
       = (Normal c', empty_world)
       /\ settle c' (server not_found_env c') = inr error
       /\ fst (Api.onRejected not_found_env error
                 (mkWorld (localStorage empty_world)
                    (trace empty_world ++ [NetCall c'])))
          = Abrupt (obj_error m cd)
       /\ fst (run_post not_found_env (OpRegister []) empty_world)
          = Normal (failure_object m cd)
       /\ truthy m = true /\ truthy cd = true.
Proof.
  split.
  - intros c'. reflexivity.
  - apply (X7_transport_failure_is_reported not_found_env (OpRegister []) empty_world).
    intros c'. reflexivity.
Defined.

(** The register call of X7 reports the text and the code of a 404. *)
Example register_not_found :
  fst (run_post not_found_env (OpRegister []) empty_world)
  = Normal (failure_object (VStr "请求的资源不存在") (VStr "NOT_FOUND")).
Proof. reflexivity. Qed.

(** X8.  A posting operation takes every 2xx answer with a readable body
    for a success, whatever the body itself reports: it returns
    [{success: true}] with the body's [data], and with the body's
    [message] when that is truthy and its own text otherwise.  Only the
    login writes to the store then, and only the expiration, and only
    when the payload has a truthy token. *)
Theorem X8_any_2xx_counts_as_success
    (env : Env) (op : post_operation) (w : World)
    (status : Z) (body d : value) :
  (forall c, server env c = Answered status body) ->
  validateStatus status = true ->
  get_prop body "data" = Normal d ->
  exists m,
    get_prop body "message" = Normal m
    /\ fst (run_post env op w)
       = Normal (success_object d (or_else m (VStr (success_text op))))
    /\ localStorage (snd (run_post env op w))
       = store_after_success env op d (localStorage w).
Proof.
  intros Hserver Hok Hd.
  destruct (run_post_cases env op w) as (c' & _ & Hcases). cbv zeta in Hcases.
  rewrite Hserver in Hcases. cbn [settle] in Hcases. rewrite Hok in Hcases.
  cbn [resp_data] in Hcases. rewrite Hd in Hcases.
  destruct Hcases as (m & Hm & ->). exists m. repeat split. exact Hm.
Qed.

(** X8 at a register call the server answers with a business failure. *)
Lemma X8_any_2xx_counts_as_success_witness :
  (forall c, server (env_at 0 (Answered 200 (resp_data rejected_login))) c
             = Answered 200 (resp_data rejected_login))
  /\ validateStatus 200 = true
  /\ get_prop (resp_data rejected_login) "data" = Normal VUndefined
  /\ exists m,
       get_prop (resp_data rejected_login) "message" = Normal m
       /\ fst (run_post (env_at 0 (Answered 200 (resp_data rejected_login)))
                 (OpRegister []) empty_world)
          = Normal (success_object VUndefined
                      (or_else m (VStr (success_text (OpRegister [])))))
       /\ localStorage (snd (run_post (env_at 0 (Answered 200 (resp_data rejected_login)))
                               (OpRegister []) empty_world))
          = store_after_success (env_at 0 (Answered 200 (resp_data rejected_login)))
              (OpRegister []) VUndefined (localStorage empty_world).
Proof.
  split; [reflexivity|]. split; [reflexivity|]. split; [reflexivity|].
  apply (X8_any_2xx_counts_as_success
           (env_at 0 (Answered 200 (resp_data rejected_login)))
           (OpRegister []) empty_world 200 (resp_data rejected_login) VUndefined);
    reflexivity.
Defined.

(** X9.  A 2xx answer whose body is [null] or [undefined] makes a posting
    operation report a failure with no code, and nothing is written to
    the store. *)
Theorem X9_null_body_is_a_failure
    (env : Env) (op : post_operation) (w : World) (status : Z) (body : value) :
  (forall c, server env c = Answered status body) ->
  validateStatus status = true ->
  body = VNull \/ body = VUndefined ->
  exists m,
    fst (run_post env op w) = Normal (failure_object m VUndefined)
    /\ truthy m = true
    /\ localStorage (snd (run_post env op w)) = localStorage w.
Proof.
  intros Hserver Hok Hbody.
  destruct (run_post_cases env op w) as (c' & _ & Hcases). cbv zeta in Hcases.
  rewrite Hserver in Hcases. cbn [settle] in Hcases. rewrite Hok in Hcases.
  cbn [resp_data] in Hcases.
  destruct Hbody as [-> | ->]; cbn [get_prop] in Hcases;
    destruct Hcases as (m & Hm & ->); exists m; repeat split; exact Hm.
Qed.

(** X9 at a password reset answered with the body [null]. *)
Lemma X9_null_body_is_a_failure_witness :
  (forall c, server (env_at 0 (Answered 200 VNull)) c = Answered 200 VNull)
  /\ validateStatus 200 = true
  /\ (VNull = VNull \/ VNull = VUndefined)
  /\ exists m,
       fst (run_post (env_at 0 (Answered 200 VNull))
              (OpReset (Api.mkResetData (VStr "a") (VStr "1234") (VStr "pw")))
              empty_world)
       = Normal (failure_object m VUndefined)
       /\ truthy m = true
       /\ localStorage (snd (run_post (env_at 0 (Answered 200 VNull))
              (OpReset (Api.mkResetData (VStr "a") (VStr "1234") (VStr "pw")))
              empty_world))
          = localStorage empty_world.
Proof.
  split; [reflexivity|]. split; [reflexivity|]. split; [left; reflexivity|].
  apply (X9_null_body_is_a_failure (env_at 0 (Answered 200 VNull))
           (OpReset (Api.mkResetData (VStr "a") (VStr "1234") (VStr "pw")))
           empty_world 200 VNull).
  - reflexivity.
  - reflexivity.
  - left; reflexivity.
Defined.

(** X10.  No posting operation ever writes a token or a user info: every
    entry the store holds afterwards was there before, except the
    expiration a login records. *)
Theorem X10_operations_store_no_token
    (env : Env) (op : post_operation) (w : World) (k v : string) :
  localStorage (snd (run_post env op w)) !! k = Some v ->
  localStorage w !! k = Some v
  \/ (k = "tokenExpiration"
      /\ v = number_to_string (now env + 86400000)
      /\ exists loginData, op = OpLogin loginData).
Proof.
  destruct (run_post_cases env op w) as (c' & _ & Hcases). cbv zeta in Hcases.
  destruct (settle c' (server env c')) as [r | error].
  - destruct (get_prop (resp_data r) "data") as [d | e].
    + destruct Hcases as (m & _ & ->). cbn [snd localStorage].
      destruct op as [loginData | | |]; cbn [store_after_success]; auto.
      destruct (truthy (get_prop_opt d "token")); auto.
      destruct (decide (k = "tokenExpiration")) as [-> | Hk].
      * rewrite lookup_insert_eq. intros [= <-]. right. eauto.
      * rewrite lookup_insert_ne by congruence. auto.
    + destruct Hcases as (m & _ & ->). cbn [snd localStorage]. auto.
  - destruct Hcases as (m & cd & _ & _ & _ & ->). cbn [snd].
    destruct (Api_onRejected_spec env error
                (mkWorld (localStorage w) (trace w ++ [NetCall c'])))
      as (_ & _ & _ & _ & -> & _). cbn [localStorage].
    destruct (is_unauthorized error); auto.
    intros H. left.
    apply lookup_delete_Some in H as (_ & H).
    apply lookup_delete_Some in H as (_ & H). exact H.
Qed.

(** X10 at the expiration a login wrote. *)
Lemma X10_operations_store_no_token_witness :
  localStorage (snd (run_post (login_env 1000) (OpLogin some_login) empty_world))
    !! "tokenExpiration" = Some "86401000"
  /\ (localStorage empty_world !! "tokenExpiration" = Some "86401000"
      \/ ("tokenExpiration" = "tokenExpiration"
          /\ "86401000" = number_to_string (now (login_env 1000) + 86400000)
          /\ exists loginData, OpLogin some_login = OpLogin loginData)).
Proof.
  split; [reflexivity|].
  apply (X10_operations_store_no_token (login_env 1000) (OpLogin some_login)
           empty_world "tokenExpiration" "86401000").
  reflexivity.
Defined.

(** ** X11..X13: what the operations put on the network *)

Lemma Api_onRequest_inv (c c' : config) (w w' : World) :
  Api.onRequest c w = (Normal c', w') ->
  method c' = method c /\ url c' = url c /\ params c' = params c
  /\ data c' = data c
  /\ (forall t, localStorage w !! "userToken" = Some t -> t <> "" ->
        headers c' !! "Authorization" = Some ("Bearer " +:+ t)).
Proof.
  unfold Api.onRequest, bind, getItem, ret. intros [= <- _].
  unfold with_header; cbn [method url params data headers].
  repeat split; try (destruct (item_truthy _); reflexivity).
  intros t Ht Hne. rewrite !lookup_insert_ne by discriminate.
  rewrite Ht. cbn. destruct (String.eqb_spec t ""); [contradiction|].
  cbn. apply lookup_insert_eq.
Qed.

Lemma simple_call_network (env : Env) (c : config) (fb fb' : string) (w : World) :
  exists c', Api.onRequest c w = (Normal c', w)
    /\ network_calls (snd (simple_call env c fb fb' w)) = (network_calls w ++ [c'])%list.
Proof.
  destruct (simple_call_cases env c fb fb' w) as (c' & Hreq & Hcases).
  exists c'. split; [exact Hreq|]. cbv zeta in Hcases.
  rewrite <- network_calls_emit.
  destruct (settle c' (server env c')) as [r | error].
  - destruct (get_prop (resp_data r) "data").
    + destruct Hcases as (m & _ & ->). reflexivity.
    + destruct Hcases as (m & _ & ->). reflexivity.
  - destruct Hcases as (m & cd & _ & _ & _ & ->). cbn [snd].
    apply Api_onRejected_no_call.
Qed.

Lemma run_post_network (env : Env) (op : post_operation) (w : World) :
  exists c', Api.onRequest (post_request env op) w = (Normal c', w)
    /\ network_calls (snd (run_post env op w)) = (network_calls w ++ [c'])%list.
Proof.
  destruct (run_post_cases env op w) as (c' & Hreq & Hcases).
  exists c'. split; [exact Hreq|]. cbv zeta in Hcases.
  rewrite <- network_calls_emit.
  destruct (settle c' (server env c')) as [r | error].
  - destruct (get_prop (resp_data r) "data").
    + destruct Hcases as (m & _ & ->). reflexivity.
    + destruct Hcases as (m & _ & ->). reflexivity.
  - destruct Hcases as (m & cd & _ & _ & _ & ->). cbn [snd].
    apply Api_onRejected_no_call.
Qed.

Lemma assoc_obj_set_eq (k : string) (v : value) (fields : list (string * value)) :
  assoc k (obj_set k v fields) = Some v.
Proof.
  induction fields as [|[k' v'] rest IH]; cbn.
  - rewrite String.eqb_refl. reflexivity.
  - destruct (String.eqb_spec k k') as [<- | Hne]; cbn.
    + rewrite String.eqb_refl. reflexivity.
    + destruct (String.eqb_spec k k'); [contradiction | exact IH].
Qed.

Lemma assoc_obj_set_ne (k k0 : string) (v : value) (fields : list (string * value)) :
  k0 <> k -> assoc k0 (obj_set k v fields) = assoc k0 fields.
Proof.
  intros Hne. induction fields as [|[k' v'] rest IH]; cbn.
  - destruct (String.eqb_spec k0 k); [contradiction | reflexivity].
  - destruct (String.eqb_spec k k') as [<- | Hkk']; cbn.
    + destruct (String.eqb_spec k0 k); [contradiction | reflexivity].
    + destruct (String.eqb_spec k0 k'); [reflexivity | exact IH].
Qed.

(** X11.  Every posting operation puts exactly one request on the
    network: a POST to the operation's URL whose body is the payload the
    operation built, tagged [platform: "web"] whatever the caller passed. *)
Theorem X11_operations_post_once (env : Env) (op : post_operation) (w : World) :
  exists c',
    network_calls (snd (run_post env op w)) = (network_calls w ++ [c'])%list
    /\ method c' = "post"
    /\ url c' = url (post_request env op)
    /\ data c' = data (post_request env op)
    /\ get_prop (data c') "platform" = Normal (VStr "web").
Proof.
  destruct (run_post_network env op w) as (c' & Hreq & Hnet).
  destruct (Api_onRequest_inv _ _ _ _ Hreq) as (Hm & Hu & _ & Hd & _).
  exists c'. split; [exact Hnet|].
  split; [rewrite Hm; destruct op; reflexivity|].
  split; [exact Hu|]. split; [exact Hd|]. rewrite Hd.
  destruct op as [loginData | registerData | data | data]; try reflexivity.
  cbn [post_request data get_prop].
  rewrite assoc_obj_set_ne by discriminate. rewrite assoc_obj_set_eq. reflexivity.
Qed.

(** X12.  The payload [registerUser] sends has the caller's fields, except
    that [platform] is always ["web"] and [register_source] always
    ["web_form"]: the caller cannot override either. *)
Theorem X12_register_payload
    (env : Env) (registerData : list (string * value)) (w : World) :
  exists c' fields,
    network_calls (snd (Api.registerUser env registerData w))
    = (network_calls w ++ [c'])%list
    /\ url c' = "/user/register"
    /\ data c' = VObj fields
    /\ assoc "platform" fields = Some (VStr "web")
    /\ assoc "register_source" fields = Some (VStr "web_form")
    /\ (forall k, k <> "platform" -> k <> "register_source" ->
          assoc k fields = assoc k registerData).
Proof.
  destruct (run_post_network env (OpRegister registerData) w) as (c' & Hreq & Hnet).
  destruct (Api_onRequest_inv _ _ _ _ Hreq) as (_ & Hu & _ & Hd & _).
  exists c'. eexists. split; [exact Hnet|]. split; [exact Hu|].
  split; [exact Hd|]. split.
  - rewrite assoc_obj_set_ne by discriminate. apply assoc_obj_set_eq.
  - split; [apply assoc_obj_set_eq|].
    intros k H1 H2. rewrite !assoc_obj_set_ne by assumption. reflexivity.
Qed.

Lemma getUserInfo_fresh (env : Env) (w : World) :
  match stored_expiration w with
  | Some e => e <? now env
  | None => false
  end = false ->
  Api.getUserInfo env w
  = simple_call env (mkConfig "get" "/user/info" None VUndefined Api.default_headers)
      "获取用户信息成功" "获取用户信息失败" w.
Proof.
  intros Hfresh. unfold Api.getUserInfo, simple_call, try_catch, Api.get.
  unfold bind at 1, getItem. cbn [fst snd]. unfold bind at 1.
  rewrite expired_test, Hfresh. reflexivity.
Qed.

(** X13.  When [checkLoginStatus] finds the session valid at some clock
    value, [getUserInfo] run on the same store at that clock value, or at
    an earlier one, does not fail fast: it sends exactly one GET to
    [/user/info], and that request carries the stored token as bearer
    credential. *)
Theorem X13_valid_session_fetches_profile (env env' : Env) (w : World) :
  isValid env w = Normal true ->
  now env' <= now env ->
  exists c' t,
    localStorage w !! "userToken" = Some t
    /\ network_calls (snd (Api.getUserInfo env' w)) = (network_calls w ++ [c'])%list
    /\ method c' = "get" /\ url c' = "/user/info"
    /\ headers c' !! "Authorization" = Some ("Bearer " +:+ t).
Proof.
  unfold isValid. rewrite checkLoginStatus_cases.
  destruct (item_truthy (localStorage w !! "userToken")) eqn:Htok;
    cbn [negb fst]; [|discriminate].
  destruct (match stored_expiration w with Some e => e <? now env | None => false end)
    eqn:Hexp; cbn [fst]; [discriminate|]. intros _ Hle.
  assert (match stored_expiration w with Some e => e <? now env' | None => false end
          = false) as Hexp'.
  { destruct (stored_expiration w) as [e|]; [|reflexivity].
    apply Z.ltb_ge in Hexp. apply Z.ltb_ge. lia. }
  apply item_truthy_Some in Htok as (t & Ht & Hne).
  rewrite (getUserInfo_fresh env' w Hexp').
  destruct (simple_call_network env'
              (mkConfig "get" "/user/info" None VUndefined Api.default_headers)
              "获取用户信息成功" "获取用户信息失败" w) as (c' & Hreq & Hnet).
  destruct (Api_onRequest_inv _ _ _ _ Hreq) as (Hm & Hu & _ & _ & Hauth).
  exists c', t. split; [exact Ht|]. split; [exact Hnet|].
  split; [exact Hm|]. split; [exact Hu|]. exact (Hauth t Ht Hne).
Qed.

(** X13 at a session valid until 1000, checked at 1000 and used at 500. *)
Lemma X13_valid_session_fetches_profile_witness :
  isValid (env_ms 1000) boundary_session = Normal true
  /\ now (login_env 500) <= now (env_ms 1000)
  /\ exists c' t,
       localStorage boundary_session !! "userToken" = Some t
       /\ network_calls (snd (Api.getUserInfo (login_env 500) boundary_session))
          = (network_calls boundary_session ++ [c'])%list
       /\ method c' = "get" /\ url c' = "/user/info"
       /\ headers c' !! "Authorization" = Some ("Bearer " +:+ t).
Proof.
  split; [reflexivity|]. split; [cbn; lia|].
  apply (X13_valid_session_fetches_profile (env_ms 1000) (login_env 500)
           boundary_session).
  - reflexivity.
  - cbn; lia.
Defined.

(** Past the expiration the same store fails fast. *)
Example expired_session_fetches_nothing :
  isValid (env_ms 1000) boundary_session = Normal true
  /\ network_calls (snd (Api.getUserInfo (login_env 1001) boundary_session)) = [].
Proof. split; reflexivity. Qed.

(** ** X14..X17: [checkLoginStatus] over time *)

(** X14.  [checkLoginStatus] shows nothing and sends nothing, never adds
    or changes an entry of the store, and touches no key besides the
    token, the user info and the expiration. *)
Theorem X14_checkLoginStatus_frame (env : Env) (w : World) :
  trace (after_isValid env w) = trace w
  /\ (forall k v, localStorage (after_isValid env w) !! k = Some v ->
                  localStorage w !! k = Some v)
  /\ (forall k, k <> "userToken" -> k <> "userInfo" -> k <> "tokenExpiration" ->
                localStorage (after_isValid env w) !! k = localStorage w !! k).
Proof.
  unfold after_isValid. rewrite checkLoginStatus_cases.
  destruct (negb (item_truthy (localStorage w !! "userToken"))); cbn [snd].
  { repeat split; auto. }
  destruct (match stored_expiration w with Some e => e <? now env | None => false end);
    cbn [snd trace localStorage].
  - split; [reflexivity|]. split.
    + intros k v H.
      apply lookup_delete_Some in H as (_ & H).
      apply lookup_delete_Some in H as (_ & H).
      apply lookup_delete_Some in H as (_ & H). exact H.
    + intros k H1 H2 H3. rewrite !lookup_delete_ne by congruence. reflexivity.
  - repeat split; auto.
Qed.

(** X15.  Once [checkLoginStatus] has returned false, it returns false
    on the store it left at every later call, whatever the clock reads:
    a session does not become valid again by itself. *)
Theorem X15_invalid_stays_invalid (env env' : Env) (w : World) :
  isValid env w = Normal false ->
  isValid env' (after_isValid env w) = Normal false.
Proof.
  unfold isValid, after_isValid. rewrite !checkLoginStatus_cases.
  destruct (item_truthy (localStorage w !! "userToken")) eqn:Htok; cbn [negb fst snd].
  - destruct (match stored_expiration w with Some e => e <? now env | None => false end);
      cbn [fst snd]; [|discriminate].
    intros _. cbn [localStorage].
    rewrite !lookup_delete_ne by discriminate. rewrite lookup_delete_eq. reflexivity.
  - intros _. rewrite Htok. reflexivity.
Qed.

(** X15 at a session that expired a second ago, checked again earlier. *)
Lemma X15_invalid_stays_invalid_witness :
  isValid (env_ms 2000) stale_session = Normal false
  /\ isValid (env_ms 0) (after_isValid (env_ms 2000) stale_session) = Normal false.
Proof.
  split; [reflexivity|].
  apply (X15_invalid_stays_invalid (env_ms 2000) (env_ms 0) stale_session).
  reflexivity.
Defined.

(** X16.  Calling [checkLoginStatus] a second time at the same clock
    value gives the same answer and changes nothing more. *)
Theorem X16_checkLoginStatus_idempotent (env : Env) (w : World) :
  isValid env (after_isValid env w) = isValid env w
  /\ localStorage (after_isValid env (after_isValid env w))
     = localStorage (after_isValid env w).
Proof.
  unfold isValid, after_isValid. rewrite !checkLoginStatus_cases.
  destruct (item_truthy (localStorage w !! "userToken")) eqn:Htok; cbn [negb fst snd].
  - destruct (match stored_expiration w with Some e => e <? now env | None => false end)
      eqn:Hexp; cbn [fst snd].
    + cbn [localStorage].
      rewrite !lookup_delete_ne by discriminate. rewrite lookup_delete_eq.
      split; reflexivity.
    + rewrite Htok, Hexp. split; reflexivity.
  - rewrite Htok. split; reflexivity.
Qed.

(** X17.  A session that is valid at some time was valid at every earlier
    time: validity can only be lost as the clock advances. *)
Theorem X17_validity_is_lost_not_gained (env1 env2 : Env) (w : World) :
  now env1 <= now env2 ->
  isValid env2 w = Normal true ->
  isValid env1 w = Normal true.
Proof.
  intros Hle. unfold isValid. rewrite !checkLoginStatus_cases.
  destruct (negb (item_truthy (localStorage w !! "userToken"))); [auto|].
  destruct (stored_expiration w) as [e|]; [|auto].
  destruct (Z.ltb_spec e (now env2)); cbn [fst]; [discriminate|].
  intros _. destruct (Z.ltb_spec e (now env1)); [lia | reflexivity].
Qed.

(** X17 at a session that expires at 1000, seen at 900 and at 1000. *)
Lemma X17_validity_is_lost_not_gained_witness :
  now (env_ms 900) <= now (env_ms 1000)
  /\ isValid (env_ms 1000) boundary_session = Normal true
  /\ isValid (env_ms 900) boundary_session = Normal true.
Proof.
  split; [cbn; lia|]. split; [reflexivity|].
  apply (X17_validity_is_lost_not_gained (env_ms 900) (env_ms 1000) boundary_session).
  - cbn; lia.
  - reflexivity.
Defined.

(** ** X18, X19: the application shell *)

Lemma three_removed (st : gmap string string) (tr : list effect) :
  session_empty
    (mkWorld (delete "tokenExpiration" (delete "userInfo" (delete "userToken" st))) tr).
Proof.
  unfold session_empty. cbn [localStorage]. repeat split.
  - rewrite !lookup_delete_ne by discriminate. apply lookup_delete_eq.
  - rewrite lookup_delete_ne by discriminate. apply lookup_delete_eq.
  - apply lookup_delete_eq.
Qed.

(** X18.  Starting logged out, [initializeApp] always finishes with
    [loading] off and shows nothing.  It ends logged in only when the
    session is valid and the stored user info is non-empty and parses,
    and then the store is untouched and the state holds the parsed user
    info; in every other case, a user info that does not parse included,
    it ends logged out with token, user info and expiration all absent. *)
Theorem X18_initializeApp_outcomes
    (JSON_parse : string -> completion value) (env : Env) (st : App.AppState)
    (w : World) :
  App.isLoggedIn st = false ->
  exists st',
    fst (App.initializeApp JSON_parse env st w) = Normal st'
    /\ App.loading st' = false
    /\ trace (snd (App.initializeApp JSON_parse env st w)) = trace w
    /\ ((App.isLoggedIn st' = true
         /\ isValid env w = Normal true
         /\ localStorage (snd (App.initializeApp JSON_parse env st w)) = localStorage w
         /\ exists s, localStorage w !! "userInfo" = Some s /\ s <> ""
              /\ JSON_parse s = Normal (App.userInfo st'))
        \/ (App.isLoggedIn st' = false
            /\ session_empty (snd (App.initializeApp JSON_parse env st w)))).
Proof.
  intros Hout.
  remember (App.initializeApp JSON_parse env st w) as r eqn:Hr.
  unfold App.initializeApp, try_catch in Hr. unfold bind at 1 2 in Hr.
  unfold isValid. rewrite checkLoginStatus_cases in *.
  destruct (negb (item_truthy (localStorage w !! "userToken"))).
  { run in Hr. subst r. eexists. split; [reflexivity|]. split; [reflexivity|].
    split; [reflexivity|]. right. split; [exact Hout | apply three_removed]. }
  destruct (match stored_expiration w with Some e => e <? now env | None => false end).
  { run in Hr. subst r. eexists. split; [reflexivity|]. split; [reflexivity|].
    split; [reflexivity|]. right. split; [exact Hout | apply three_removed]. }
  unfold bind at 1, getItem in Hr. cbn [andb] in Hr.
  destruct (item_truthy (localStorage w !! "userInfo")) eqn:Hinfo.
  - apply item_truthy_Some in Hinfo as (s & Hs & Hne). rewrite Hs in Hr.
    cbn [default] in Hr. unfold id, bind, lift, ret in Hr.
    destruct (JSON_parse s) as [parsed | e] eqn:Hparse.
    + subst r. eexists. split; [reflexivity|]. split; [reflexivity|].
      split; [reflexivity|]. left. cbn.
      split; [reflexivity|]. split; [reflexivity|]. split; [reflexivity|].
      exists s. auto.
    + unfold App.clearStorage in Hr. subst r. eexists. split; [reflexivity|].
      split; [reflexivity|]. split; [reflexivity|]. right.
      split; [exact Hout|]. unfold session_empty. cbn.
      repeat split; apply lookup_empty.
  - run in Hr. subst r. eexists. split; [reflexivity|]. split; [reflexivity|].
    split; [reflexivity|]. right. split; [exact Hout | apply three_removed].
Qed.

(** X18 at a valid session whose user info parses. *)
Lemma X18_initializeApp_outcomes_witness :
  App.isLoggedIn (App.mkAppState false VNull true) = false
  /\ exists st',
       fst (App.initializeApp parse_stub (env_ms 500)
              (App.mkAppState false VNull true) stale_session) = Normal st'
       /\ App.loading st' = false
       /\ trace (snd (App.initializeApp parse_stub (env_ms 500)
                        (App.mkAppState false VNull true) stale_session))
          = trace stale_session
       /\ ((App.isLoggedIn st' = true
            /\ isValid (env_ms 500) stale_session = Normal true
            /\ localStorage (snd (App.initializeApp parse_stub (env_ms 500)
                                    (App.mkAppState false VNull true) stale_session))
               = localStorage stale_session
            /\ exists s, localStorage stale_session !! "userInfo" = Some s /\ s <> ""
                 /\ parse_stub s = Normal (App.userInfo st'))
           \/ (App.isLoggedIn st' = false
               /\ session_empty (snd (App.initializeApp parse_stub (env_ms 500)
                                        (App.mkAppState false VNull true)
                                        stale_session)))).
Proof.
  split; [reflexivity|].
  apply (X18_initializeApp_outcomes parse_stub (env_ms 500)
           (App.mkAppState false VNull true) stale_session).
  reflexivity.
Defined.

(** X19.  When the page becomes visible again, [handleVisibilityChange]
    logs a logged-in user out exactly when [checkLoginStatus] now
    returns false: then token, user info and expiration are all absent
    and the logout notice is the one thing shown.  In every other case
    the state is kept and nothing is shown, and the store is untouched
    as well when the page is hidden or the user is logged in. *)
Theorem X19_visibility_change (visible : bool) (env : Env) (st : App.AppState)
    (w : World) :
  let r := App.handleVisibilityChange visible env st w in
  if visible && App.isLoggedIn st
     && match isValid env w with Normal false => true | _ => false end
  then fst r = Normal (App.mkAppState false VNull (App.loading st))
       /\ session_empty (snd r)
       /\ trace (snd r) = (trace w ++ [Alert "已安全退出登录"])%list
  else fst r = Normal st
       /\ trace (snd r) = trace w
       /\ (negb visible || App.isLoggedIn st = true -> snd r = w).
Proof.
  cbv zeta.
  remember (App.handleVisibilityChange visible env st w) as r eqn:Hr.
  unfold App.handleVisibilityChange in Hr. unfold isValid.
  destruct visible; cbn [andb]; [|subst r; repeat split; discriminate].
  unfold bind at 1 in Hr. rewrite checkLoginStatus_cases in *.
  destruct (negb (item_truthy (localStorage w !! "userToken"))).
  { cbn [fst negb andb] in *.
    destruct (App.isLoggedIn st); cbn [andb] in *.
    - unfold App.logout in Hr. run in Hr. subst r. split; [reflexivity|].
      split; [apply three_removed | reflexivity].
    - subst r. repeat split; try discriminate. }
  destruct (match stored_expiration w with Some e => e <? now env | None => false end).
  { cbn [fst negb andb] in *.
    destruct (App.isLoggedIn st); cbn [andb] in *.
    - unfold App.logout in Hr. run in Hr. subst r. split; [reflexivity|].
      split; [|reflexivity].
      unfold session_empty. cbn [snd localStorage]. repeat split.
      + rewrite !lookup_delete_ne by discriminate. apply lookup_delete_eq.
      + rewrite lookup_delete_ne by discriminate. apply lookup_delete_eq.
      + apply lookup_delete_eq.
    - subst r. repeat split; try discriminate. }
  cbn [fst negb andb] in *. rewrite andb_false_r.
  subst r. repeat split.
Qed.

(** ** X20..X23: the login form *)

Lemma handleLogin_valid (js : value -> option string) (env : Env)
    (f : LoginPage.Form) :
  form_ok f = true ->
  LoginPage.handleLogin js env f
  = LoginPage.submit js env (account_of f) (LoginPage.set_error (VStr "") f).
Proof.
  unfold form_ok, account_of, LoginPage.handleLogin.
  cbn [LoginPage.set_error LoginPage.loginMethod LoginPage.phone LoginPage.email
       LoginPage.password].
  intros H. apply andb_true_iff in H as (H & H3).
  apply andb_true_iff in H as (H1 & H2).
  apply negb_true_iff in H1, H2, H3. rewrite H1, H2, H3. reflexivity.
Qed.

(** X20.  A form that fails a check of [handleLogin] (an empty account
    or password, a phone number that is not 1, a digit from 3 to 9 and
    nine more digits, a malformed e-mail address) only gets an error
    message: no request is sent and the store, the screen and the
    loading flag are as before. *)
Theorem X20_invalid_form_sends_nothing
    (js : value -> option string) (env : Env) (f : LoginPage.Form) (w : World) :
  form_ok f = false ->
  exists msg,
    msg <> ""
    /\ LoginPage.handleLogin js env f w
       = (Normal (LoginPage.set_error (VStr msg) f), w).
Proof.
  unfold form_ok, account_of, LoginPage.handleLogin.
  cbn [LoginPage.set_error LoginPage.loginMethod LoginPage.phone LoginPage.email
       LoginPage.password].
  intros H.
  destruct (String.eqb _ "" || String.eqb (LoginPage.password f) "").
  { eexists. split; [|reflexivity]. discriminate. }
  destruct (String.eqb (LoginPage.loginMethod f) "phone"
            && negb (LoginPage.phone_ok (LoginPage.phone f))).
  { eexists. split; [|reflexivity]. discriminate. }
  destruct (String.eqb (LoginPage.loginMethod f) "email"
            && negb (LoginPage.email_ok (LoginPage.email f))).
  { eexists. split; [|reflexivity]. discriminate. }
  discriminate.
Qed.

(** X20 at a phone number whose second digit is 2. *)
Lemma X20_invalid_form_sends_nothing_witness :
  form_ok bad_phone_form = false
  /\ exists msg,
       msg <> ""
       /\ LoginPage.handleLogin stringify_stub (login_env 1000) bad_phone_form
            empty_world
          = (Normal (LoginPage.set_error (VStr msg) bad_phone_form), empty_world).
Proof.
  split; [reflexivity|].
  apply (X20_invalid_form_sends_nothing stringify_stub (login_env 1000)
           bad_phone_form empty_world).
  reflexivity.
Defined.

(** What [loginUser] returns and leaves behind on a 2xx answer with a
    readable body. *)
Lemma loginUser_2xx (env : Env) (loginData : Api.LoginData) (w : World)
    (status : Z) (body d : value) :
  (forall c, server env c = Answered status body) ->
  validateStatus status = true ->
  get_prop body "data" = Normal d ->
  exists c' m,
    Api.loginUser env loginData w
    = (Normal (success_object d m),
       mkWorld (store_after_success env (OpLogin loginData) d (localStorage w))
               (trace w ++ [NetCall c'])).
Proof.
  intros Hserver Hok Hd.
  destruct (run_post_cases env (OpLogin loginData) w) as (c' & _ & Hcases).
  cbv zeta in Hcases.
  rewrite Hserver in Hcases. cbn [settle] in Hcases. rewrite Hok in Hcases.
  cbn [resp_data] in Hcases. rewrite Hd in Hcases.
  destruct Hcases as (m & _ & Hrun). cbn [run_post] in Hrun. eauto.
Qed.

(** X21.  When the server answers a valid form with a 2xx whose body has
    no [data] (as a body that only reports a wrong password has),
    [handleLogin] ends with the message for a network error: nothing is
    stored, nothing is announced, and the loading flag is off again. *)
Theorem X21_missing_data_shows_network_error
    (js : value -> option string) (env : Env) (f : LoginPage.Form) (w : World)
    (status : Z) (body d : value) :
  form_ok f = true ->
  (forall c, server env c = Answered status body) ->
  validateStatus status = true ->
  get_prop body "data" = Normal d ->
  d = VNull \/ d = VUndefined ->
  fst (LoginPage.handleLogin js env f w)
  = Normal (LoginPage.set_loading false
              (LoginPage.set_error (VStr "网络错误，请检查网络连接") f))
  /\ localStorage (snd (LoginPage.handleLogin js env f w)) = localStorage w
  /\ exists c', trace (snd (LoginPage.handleLogin js env f w))
                = (trace w ++ [NetCall c'])%list.
Proof.
  intros Hform Hserver Hok Hd Hnone.
  rewrite (handleLogin_valid js env f Hform).
  destruct (loginUser_2xx env
              (Api.mkLoginData (VStr (account_of f)) (VStr (LoginPage.password f))
                 (VStr (LoginPage.loginMethod f)))
              w status body d Hserver Hok Hd) as (c' & m & Hrun).
  remember (LoginPage.submit js env (account_of f)
              (LoginPage.set_error (VStr "") f) w) as r eqn:Hr.
  unfold LoginPage.submit, try_catch in Hr. unfold bind at 1 2 in Hr.
  cbn [LoginPage.set_loading LoginPage.set_error LoginPage.password
       LoginPage.loginMethod LoginPage.phone LoginPage.email LoginPage.loading
       LoginPage.error] in Hr.
  rewrite Hrun in Hr.
  destruct Hnone as [-> | ->]; cbn in Hr; subst r;
    (split; [reflexivity|]); (split; [reflexivity|]); exists c'; reflexivity.
Qed.

(** X21 at a login the server rejects inside a 200. *)
Lemma X21_missing_data_shows_network_error_witness :
  form_ok phone_form = true
  /\ (forall c, server (env_at 0 (Answered 200 (resp_data rejected_login))) c
                = Answered 200 (resp_data rejected_login))
  /\ validateStatus 200 = true
  /\ get_prop (resp_data rejected_login) "data" = Normal VUndefined
  /\ (VUndefined = VNull \/ VUndefined = VUndefined)
  /\ (fst (LoginPage.handleLogin stringify_stub
             (env_at 0 (Answered 200 (resp_data rejected_login))) phone_form empty_world)
      = Normal (LoginPage.set_loading false
                  (LoginPage.set_error (VStr "网络错误，请检查网络连接") phone_form))
      /\ localStorage (snd (LoginPage.handleLogin stringify_stub
             (env_at 0 (Answered 200 (resp_data rejected_login))) phone_form empty_world))
         = localStorage empty_world
      /\ exists c', trace (snd (LoginPage.handleLogin stringify_stub
             (env_at 0 (Answered 200 (resp_data rejected_login))) phone_form empty_world))
                    = (trace empty_world ++ [NetCall c'])%list).
Proof.
  split; [reflexivity|]. split; [reflexivity|]. split; [reflexivity|].
  split; [reflexivity|]. split; [right; reflexivity|].
  apply (X21_missing_data_shows_network_error stringify_stub
           (env_at 0 (Answered 200 (resp_data rejected_login))) phone_form empty_world
           200 (resp_data rejected_login) VUndefined).
  - reflexivity.
  - reflexivity.
  - reflexivity.
  - reflexivity.
  - right; reflexivity.
Defined.

(** What a valid form leaves behind when the answer is a 2xx whose body
    has a [data] object, by whether the token has a text. *)
Lemma handleLogin_2xx (js : value -> option string) (env : Env)
    (f : LoginPage.Form) (w : World) (status : Z) (body d tok : value)
    (text : string) :
  form_ok f = true ->
  (forall c, server env c = Answered status body) ->
  validateStatus status = true ->
  get_prop body "data" = Normal d ->
  get_prop d "token" = Normal tok ->
  to_string tok = Normal text ->
  exists c' u,
    get_prop d "userInfo" = Normal u
    /\ LoginPage.handleLogin js env f w
       = (Normal (LoginPage.set_loading false (LoginPage.set_error (VStr "") f)),
          mkWorld
            (<["userInfo" := default "undefined" (js u)]>
               (<["userToken" := text]>
                  (if truthy tok
                   then <["tokenExpiration" := number_to_string (now env + 86400000)]>
                          (localStorage w)
                   else localStorage w)))
            (trace w ++ [NetCall c'; Alert "登录成功！"; Reload])).
Proof.
  intros Hform Hserver Hok Hd Htok Htext.
  rewrite (handleLogin_valid js env f Hform).
  destruct (loginUser_2xx env
              (Api.mkLoginData (VStr (account_of f)) (VStr (LoginPage.password f))
                 (VStr (LoginPage.loginMethod f)))
              w status body d Hserver Hok Hd) as (c' & m & Hrun).
  assert (exists u, get_prop d "userInfo" = Normal u) as (u & Hu).
  { destruct d; try discriminate; cbn; eauto. }
  exists c', u. split; [exact Hu|].
  unfold LoginPage.submit, try_catch. unfold bind at 1 2.
  cbn [LoginPage.set_loading LoginPage.set_error LoginPage.password
       LoginPage.loginMethod LoginPage.phone LoginPage.email LoginPage.loading
       LoginPage.error].
  rewrite Hrun. unfold bind at 1, lift.
  cbn [success_object get_prop assoc String.eqb Ascii.eqb Bool.eqb default truthy].
  unfold id. cbn [truthy]. unfold bind at 1. unfold bind at 1.
  rewrite Htok. unfold bind at 1. rewrite Htext. run. rewrite Hu.
  cbn [store_after_success].
  unfold get_prop_opt. rewrite Htok. rewrite <- !app_assoc. reflexivity.
Qed.

Lemma handleLogin_2xx_no_text (js : value -> option string) (env : Env)
    (f : LoginPage.Form) (w : World) (status : Z) (body d tok : value)
    (e : thrown) :
  form_ok f = true ->
  (forall c, server env c = Answered status body) ->
  validateStatus status = true ->
  get_prop body "data" = Normal d ->
  get_prop d "token" = Normal tok ->
  to_string tok = Abrupt e ->
  exists c',
    LoginPage.handleLogin js env f w
    = (Normal (LoginPage.set_loading false
                 (LoginPage.set_error (VStr "网络错误，请检查网络连接") f)),
       mkWorld
         (if truthy tok
          then <["tokenExpiration" := number_to_string (now env + 86400000)]>
                 (localStorage w)
          else localStorage w)
         (trace w ++ [NetCall c'])).
Proof.
  intros Hform Hserver Hok Hd Htok Htext.
  rewrite (handleLogin_valid js env f Hform).
  destruct (loginUser_2xx env
              (Api.mkLoginData (VStr (account_of f)) (VStr (LoginPage.password f))
                 (VStr (LoginPage.loginMethod f)))
              w status body d Hserver Hok Hd) as (c' & m & Hrun).
  exists c'.
  unfold LoginPage.submit, try_catch. unfold bind at 1 2.
  cbn [LoginPage.set_loading LoginPage.set_error LoginPage.password
       LoginPage.loginMethod LoginPage.phone LoginPage.email LoginPage.loading
       LoginPage.error].
  rewrite Hrun. unfold bind at 1, lift.
  cbn [success_object get_prop assoc String.eqb Ascii.eqb Bool.eqb default truthy].
  unfold id. cbn [truthy]. unfold bind at 1. unfold bind at 1.
  rewrite Htok. unfold bind at 1. rewrite Htext. run.
  cbn [store_after_success].
  unfold get_prop_opt. rewrite Htok. reflexivity.
Qed.

(** X22.  Every 2xx answer whose body has a [data] object counts as a
    login for a valid form, and the expiration is written when
    [data.token] is truthy.  When [data.token] has a text (the text
    "undefined" when there is no token), [handleLogin] stores that text
    as the token and the serialized [data.userInfo], announces the
    success and reloads the page.  When it has none (an object with a
    key [toString] of its own), [setItem] throws: no token and no user
    info are stored, nothing is announced, and the form shows the
    message for a network error. *)
Theorem X22_login_stores_the_session
    (js : value -> option string) (env : Env) (f : LoginPage.Form) (w : World)
    (status : Z) (body d tok : value) :
  form_ok f = true ->
  (forall c, server env c = Answered status body) ->
  validateStatus status = true ->
  get_prop body "data" = Normal d ->
  get_prop d "token" = Normal tok ->
  let r := LoginPage.handleLogin js env f w in
  localStorage (snd r) !! "tokenExpiration"
  = (if truthy tok then Some (number_to_string (now env + 86400000))
     else localStorage w !! "tokenExpiration")
  /\ match to_string tok with
     | Normal text =>
         fst r = Normal (LoginPage.set_loading false
                           (LoginPage.set_error (VStr "") f))
         /\ localStorage (snd r) !! "userToken" = Some text
         /\ (exists u, get_prop d "userInfo" = Normal u
               /\ localStorage (snd r) !! "userInfo"
                  = Some (default "undefined" (js u)))
         /\ exists c', trace (snd r)
              = (trace w ++ [NetCall c'; Alert "登录成功！"; Reload])%list
     | Abrupt _ =>
         fst r = Normal (LoginPage.set_loading false
                           (LoginPage.set_error (VStr "网络错误，请检查网络连接") f))
         /\ localStorage (snd r) !! "userToken" = localStorage w !! "userToken"
         /\ localStorage (snd r) !! "userInfo" = localStorage w !! "userInfo"
         /\ exists c', trace (snd r) = (trace w ++ [NetCall c'])%list
     end.
Proof.
  intros Hform Hserver Hok Hd Htok. cbv zeta.
  destruct (to_string tok) as [text | e] eqn:Htext.
  - destruct (handleLogin_2xx js env f w status body d tok text
                Hform Hserver Hok Hd Htok Htext) as (c' & u & Hu & Hrun).
    rewrite Hrun. cbn [fst snd localStorage trace]. split.
    { rewrite !lookup_insert_ne by discriminate.
      destruct (truthy tok); [apply lookup_insert_eq | reflexivity]. }
    split; [reflexivity|].
    split; [rewrite lookup_insert_ne by discriminate; apply lookup_insert_eq|].
    split; [exists u; split; [exact Hu | apply lookup_insert_eq]|].
    exists c'; reflexivity.
  - destruct (handleLogin_2xx_no_text js env f w status body d tok e
                Hform Hserver Hok Hd Htok Htext) as (c' & Hrun).
    rewrite Hrun. cbn [fst snd localStorage trace]. split.
    { destruct (truthy tok); [apply lookup_insert_eq | reflexivity]. }
    split; [reflexivity|].
    split; [destruct (truthy tok);
            [apply lookup_insert_ne; discriminate | reflexivity]|].
    split; [destruct (truthy tok);
            [apply lookup_insert_ne; discriminate | reflexivity]|].
    exists c'; reflexivity.
Qed.

(** X22 at a 2xx answer whose token is an object that has no text. *)
Lemma X22_login_stores_the_session_witness :
  form_ok phone_form = true
  /\ (forall c, server (env_at 7 (Answered 200 unprintable_login)) c
                = Answered 200 unprintable_login)
  /\ validateStatus 200 = true
  /\ get_prop unprintable_login "data"
     = Normal (VObj [("token", VObj [("toString", VNum 1)])])
  /\ get_prop (VObj [("token", VObj [("toString", VNum 1)])]) "token"
     = Normal (VObj [("toString", VNum 1)])
  /\ (let r := LoginPage.handleLogin stringify_stub
                 (env_at 7 (Answered 200 unprintable_login)) phone_form empty_world in
      localStorage (snd r) !! "tokenExpiration"
      = (if truthy (VObj [("toString", VNum 1)])
         then Some (number_to_string
                      (now (env_at 7 (Answered 200 unprintable_login)) + 86400000))
         else localStorage empty_world !! "tokenExpiration")
      /\ match to_string (VObj [("toString", VNum 1)]) with
         | Normal text =>
             fst r = Normal (LoginPage.set_loading false
                               (LoginPage.set_error (VStr "") phone_form))
             /\ localStorage (snd r) !! "userToken" = Some text
             /\ (exists u,
                   get_prop (VObj [("token", VObj [("toString", VNum 1)])]) "userInfo"
                   = Normal u
                   /\ localStorage (snd r) !! "userInfo"
                      = Some (default "undefined" (stringify_stub u)))
             /\ exists c', trace (snd r)
                  = (trace empty_world ++ [NetCall c'; Alert "登录成功！"; Reload])%list
         | Abrupt _ =>
             fst r = Normal (LoginPage.set_loading false
                               (LoginPage.set_error
                                  (VStr "网络错误，请检查网络连接") phone_form))
             /\ localStorage (snd r) !! "userToken"
                = localStorage empty_world !! "userToken"
             /\ localStorage (snd r) !! "userInfo"
                = localStorage empty_world !! "userInfo"
             /\ exists c', trace (snd r) = (trace empty_world ++ [NetCall c'])%list
         end).
Proof.
  split; [reflexivity|]. split; [reflexivity|]. split; [reflexivity|].
  split; [reflexivity|]. split; [reflexivity|].
  apply (X22_login_stores_the_session stringify_stub
           (env_at 7 (Answered 200 unprintable_login))
           phone_form empty_world 200 unprintable_login
           (VObj [("token", VObj [("toString", VNum 1)])])
           (VObj [("toString", VNum 1)]));
    reflexivity.
Defined.

(** X23.  After a login that returned a non-empty string token when the
    clock read [T], [checkLoginStatus] finds the session valid at every
    time up to and including [T + 86400000] and invalid at every later
    time. *)
Theorem X23_session_lasts_a_day
    (js : value -> option string) (env env' : Env) (f : LoginPage.Form) (w : World)
    (status : Z) (body d : value) (token : string) :
  form_ok f = true ->
  (forall c, server env c = Answered status body) ->
  validateStatus status = true ->
  get_prop body "data" = Normal d ->
  get_prop d "token" = Normal (VStr token) ->
  token <> "" ->
  (isValid env' (snd (LoginPage.handleLogin js env f w)) = Normal true
   <-> now env' <= now env + 86400000).
Proof.
  intros Hform Hserver Hok Hd Htok Hne.
  destruct (handleLogin_2xx js env f w status body d (VStr token) token
              Hform Hserver Hok Hd Htok eq_refl) as (c' & u & Hu & Hrun).
  rewrite Hrun. cbn [snd]. unfold isValid. rewrite checkLoginStatus_cases.
  assert (truthy (VStr token) = true) as Ht
    by (cbn; destruct (String.eqb_spec token ""); [contradiction | reflexivity]).
  rewrite Ht. unfold stored_expiration. cbn [localStorage].
  rewrite !lookup_insert_ne by discriminate. rewrite lookup_insert_eq.
  rewrite (lookup_insert_ne _ "userInfo" "tokenExpiration") by discriminate.
  rewrite (lookup_insert_ne _ "userToken" "tokenExpiration") by discriminate.
  rewrite lookup_insert_eq. rewrite parseInt_number_to_string.
  replace (item_truthy (Some token)) with true
    by (cbn; destruct (String.eqb_spec token ""); [contradiction | reflexivity]).
  cbn [negb].
  destruct (Z.ltb_spec (now env + 86400000) (now env')); cbn [fst]; split;
    try reflexivity; try discriminate; lia.
Qed.

(** X23 at a login at 1000, checked at the last valid millisecond. *)
Lemma X23_session_lasts_a_day_witness :
  form_ok phone_form = true
  /\ (forall c, server (login_env 1000) c
                = Answered 200 (VObj [("code", VNum 200); ("data", login_payload);
                                      ("message", VStr "ok")]))
  /\ validateStatus 200 = true
  /\ get_prop login_payload "token" = Normal (VStr "t1")
  /\ "t1" <> ""
  /\ (isValid (env_ms 86401000)
        (snd (LoginPage.handleLogin stringify_stub (login_env 1000) phone_form
                empty_world)) = Normal true
      <-> now (env_ms 86401000) <= now (login_env 1000) + 86400000).
Proof.
  split; [reflexivity|]. split; [reflexivity|]. split; [reflexivity|].
  split; [reflexivity|]. split; [discriminate|].
  apply (X23_session_lasts_a_day stringify_stub (login_env 1000) (env_ms 86401000)
           phone_form empty_world 200
           (VObj [("code", VNum 200); ("data", login_payload); ("message", VStr "ok")])
           login_payload "t1").
  - reflexivity.
  - reflexivity.
  - reflexivity.
  - reflexivity.
  - reflexivity.
  - discriminate.
Defined.

(** ** X24..X26: the fulfilled handler and the wrappers of [request.js] *)

(** X24.  When a 2xx body carries the success indicator and its [data]
    field is truthy, the fulfilled handler of [request.js] resolves with
    that field alone: the envelope is dropped. *)
Theorem X24_truthy_payload_is_unwrapped (r : response) (w : World) (d : value) :
  reports_success (resp_data r) ->
  get_prop (resp_data r) "data" = Normal d ->
  truthy d = true ->
  Request.onFulfilled r w = (Normal d, w).
Proof.
  intros Hok Hd Htruthy. unfold Request.onFulfilled. run.
  rewrite (body_ok_success _ Hok), Hd. unfold or_else. rewrite Htruthy.
  reflexivity.
Qed.

(** X24 at the payload of a login. *)
Lemma X24_truthy_payload_is_unwrapped_witness :
  reports_success (VObj [("success", VBool true); ("data", login_payload)])
  /\ get_prop (VObj [("success", VBool true); ("data", login_payload)]) "data"
     = Normal login_payload
  /\ truthy login_payload = true
  /\ Request.onFulfilled
       (mkResponse 200 (VObj [("success", VBool true); ("data", login_payload)])
          info_request) empty_world
     = (Normal login_payload, empty_world).
Proof.
  assert (reports_success (VObj [("success", VBool true); ("data", login_payload)]))
    as Hok.
  { right. exists VUndefined, (VBool true). repeat split. }
  split; [exact Hok|]. split; [reflexivity|]. split; [reflexivity|].
  apply (X24_truthy_payload_is_unwrapped
           (mkResponse 200 (VObj [("success", VBool true); ("data", login_payload)])
              info_request) empty_world login_payload).
  - exact Hok.
  - reflexivity.
  - reflexivity.
Defined.

(** X25.  A 2xx answer whose body is [null] or [undefined] makes the
    fulfilled handler of [request.js] fail with the [TypeError] of the
    property access, not with an error the handler built, and the world
    is left as it was. *)
Theorem X25_null_body_raises_TypeError (r : response) (w : World) :
  resp_data r = VNull \/ resp_data r = VUndefined ->
  exists message,
    Request.onFulfilled r w = (Abrupt (ErrorObject "TypeError" message), w).
Proof.
  unfold Request.onFulfilled, Request.body_ok. run.
  intros [-> | ->]; cbn; eexists; reflexivity.
Qed.

(** X25 at the body [null]. *)
Lemma X25_null_body_raises_TypeError_witness :
  (resp_data (mkResponse 200 VNull info_request) = VNull
   \/ resp_data (mkResponse 200 VNull info_request) = VUndefined)
  /\ exists message,
       Request.onFulfilled (mkResponse 200 VNull info_request) empty_world
       = (Abrupt (ErrorObject "TypeError" message), empty_world).
Proof.
  split; [left; reflexivity|].
  apply (X25_null_body_raises_TypeError (mkResponse 200 VNull info_request)
           empty_world).
  left; reflexivity.
Defined.

Lemma Request_send_network (env : Env) (c : config) (w : World) :
  exists c', Request.onRequest env c w = (Normal c', w)
    /\ network_calls (snd (Request.send env c w)) = (network_calls w ++ [c'])%list.
Proof.
  destruct (Request_send_settles env c w) as (c' & Hreq & ->).
  exists c'. split; [exact Hreq|]. rewrite <- network_calls_emit.
  destruct (settle c' (server env c')) as [r | error].
  - unfold Request.onFulfilled, bind, lift, ret, throw.
    destruct (Request.body_ok (resp_data r)) as [[|]|e]; cbn [snd];
      try reflexivity.
    + destruct (get_prop (resp_data r) "data"); reflexivity.
    + destruct (get_prop (resp_data r) "message"); reflexivity.
  - apply Request_onRejected_no_call.
Qed.

(** X26.  [get(url, params)] sends one GET to [url] whose query is the
    caller's parameters (none when left out) with [_t] set to the clock
    value; [post], [put] and [del] send one POST, PUT or DELETE to [url]
    with no query parameters at all, the first two with [data] as body,
    or with the empty object when [data] is left out or [undefined]. *)
Theorem X26_request_wrappers
    (env : Env) (u : string) (p : option (gmap string value)) (d : value)
    (w : World) :
  (exists c',
     network_calls (snd (Request.get env u p w)) = (network_calls w ++ [c'])%list
     /\ method c' = "get" /\ url c' = u
     /\ params c' = Some (<["_t" := VNum (now env)]> (default ∅ p)))
  /\ (exists c',
        network_calls (snd (Request.post env u d w)) = (network_calls w ++ [c'])%list
        /\ method c' = "post" /\ url c' = u /\ params c' = None
        /\ data c' = match d with VUndefined => VObj [] | _ => d end)
  /\ (exists c',
        network_calls (snd (Request.put env u d w)) = (network_calls w ++ [c'])%list
        /\ method c' = "put" /\ url c' = u /\ params c' = None
        /\ data c' = match d with VUndefined => VObj [] | _ => d end)
  /\ (exists c',
        network_calls (snd (Request.del env u w)) = (network_calls w ++ [c'])%list
        /\ method c' = "delete" /\ url c' = u /\ params c' = None).
Proof.
  split; [|split; [|split]].
  - unfold Request.get.
    destruct (Request_send_network env
                (mkConfig "get" u (Some (default ∅ p)) VUndefined
                   Request.default_headers) w)
      as (c' & Hreq & Hnet).
    exists c'. split; [exact Hnet|].
    unfold Request.onRequest, bind, getItem, ret in Hreq.
    injection Hreq as <-.
    destruct (item_truthy (localStorage w !! "token")); repeat split.
  - unfold Request.post.
    destruct (Request_send_network env
                (mkConfig "post" u None (Request.or_empty_object d)
                   Request.default_headers) w)
      as (c' & Hreq & Hnet).
    exists c'. split; [exact Hnet|].
    unfold Request.onRequest, bind, getItem, ret in Hreq.
    injection Hreq as <-.
    destruct (item_truthy (localStorage w !! "token")); repeat split.
  - unfold Request.put.
    destruct (Request_send_network env
                (mkConfig "put" u None (Request.or_empty_object d)
                   Request.default_headers) w)
      as (c' & Hreq & Hnet).
    exists c'. split; [exact Hnet|].
    unfold Request.onRequest, bind, getItem, ret in Hreq.
    injection Hreq as <-.
    destruct (item_truthy (localStorage w !! "token")); repeat split.
  - unfold Request.del.
    destruct (Request_send_network env
                (mkConfig "delete" u None VUndefined Request.default_headers) w)
      as (c' & Hreq & Hnet).
    exists c'. split; [exact Hnet|].
    unfold Request.onRequest, bind, getItem, ret in Hreq.
    injection Hreq as <-.
    destruct (item_truthy (localStorage w !! "token")); repeat split.
Qed.
